(** * CMS-Detect: the detection pipeline of [bot_eshop_core.py]

    A shallow embedding of the pipeline (domain extraction, URL probing, CMS
    classification, per-row aggregation, output naming) and the properties
    its specification states about it.

    Modelling conventions.
    - A Python [str] is a [string] whose characters are the code points
      0..255 (Latin-1); [str.lower], [str.strip] and the other string
      methods are written out on that alphabet in [PyStr].
    - The set [GENERIC_EMAIL_DOMAINS] is a [gset string]; the lowercased
      header dictionary built by [detect_cms_from_response] is a
      [gmap string string].
    - Exceptions are values of [PyExc] (instances of Python's [Exception]);
      code that may raise returns a [result].
    - The network is an oracle answering each GET from the history of the
      requests made so far; the history is threaded through the code as
      explicit state, as is the list of files written. *)

From Stdlib Require Import String Ascii List Bool ZArith Lia.
From stdpp Require Import base option gmap strings.
Import ListNotations.

Local Open Scope string_scope.
Local Open Scope list_scope.

(* ===================================================================== *)
(** ** Python string methods *)
(* ===================================================================== *)

Module PyStr.

(** [str.isspace] on the code points below 256: TAB..CR, FS..US, SPACE,
    NEL (0x85) and NBSP (0xA0). *)
Definition is_space (c : ascii) : bool :=
  let n := nat_of_ascii c in
  ((9 <=? n) && (n <=? 13) || (28 <=? n) && (n <=? 32)
   || (n =? 133) || (n =? 160))%nat.

(** [str.lower] on one code point below 256: A..Z and the accented capitals
    0xC0..0xDE (except the multiplication sign 0xD7) move up by 32. *)
Definition lower_char (c : ascii) : ascii :=
  let n := nat_of_ascii c in
  if ((65 <=? n) && (n <=? 90)
      || (192 <=? n) && (n <=? 222) && negb (n =? 215))%nat
  then ascii_of_nat (n + 32) else c.

Fixpoint map_chars (f : ascii -> ascii) (s : string) : string :=
  match s with
  | EmptyString => EmptyString
  | String c s' => String (f c) (map_chars f s')
  end.

(** [s.lower()] *)
Definition lower (s : string) : string := map_chars lower_char s.

(** [s.lstrip()] *)
Fixpoint lstrip (s : string) : string :=
  match s with
  | EmptyString => EmptyString
  | String c s' => if is_space c then lstrip s' else s
  end.

(** [s.rstrip()] *)
Fixpoint rstrip (s : string) : string :=
  match s with
  | EmptyString => EmptyString
  | String c s' =>
      match rstrip s' with
      | EmptyString => if is_space c then EmptyString else String c EmptyString
      | r => String c r
      end
  end.

(** [s.strip()] *)
Definition strip (s : string) : string := rstrip (lstrip s).

(** [s.startswith(p)] *)
Fixpoint startswith (p s : string) : bool :=
  match p, s with
  | EmptyString, _ => true
  | String a p', String b s' => Ascii.eqb a b && startswith p' s'
  | String _ _, EmptyString => false
  end.

(** [sub in s] *)
Fixpoint contains (sub s : string) : bool :=
  startswith sub s ||
  match s with
  | EmptyString => false
  | String _ s' => contains sub s'
  end.

(** [s.split(sep)] for a separator of one character. *)
Fixpoint split (sep : ascii) (s : string) : list string :=
  match s with
  | EmptyString => [EmptyString]
  | String c s' =>
      if Ascii.eqb c sep then EmptyString :: split sep s'
      else match split sep s' with
           | p :: ps => String c p :: ps
           | [] => [String c EmptyString]
           end
  end.

(** [s.replace(c, "")] for an old string of one character. *)
Fixpoint remove (c : ascii) (s : string) : string :=
  match s with
  | EmptyString => EmptyString
  | String a s' => if Ascii.eqb a c then remove c s' else String a (remove c s')
  end.

(** [s[:n]] for [n >= 0]. *)
Fixpoint take (n : nat) (s : string) : string :=
  match n, s with
  | S n', String c s' => String c (take n' s')
  | _, _ => EmptyString
  end.

(** [s[n:]] for [n >= 0]. *)
Fixpoint drop (n : nat) (s : string) : string :=
  match n, s with
  | S n', String _ s' => drop n' s'
  | _, _ => s
  end.

(** [s[:-n]] for [n > 0]: a negative stop counts from the end and is
    clamped at the start of the string. *)
Definition slice_to_neg (n : nat) (s : string) : string :=
  take (String.length s - n) s.

(** [s.endswith(suffix)] *)
Definition endswith (suffix s : string) : bool :=
  (String.length suffix <=? String.length s)%nat
  && String.eqb (drop (String.length s - String.length suffix) s) suffix.

(** [not s] for a string: the empty string is falsy. *)
Definition is_empty (s : string) : bool :=
  match s with EmptyString => true | _ => false end.

End PyStr.

(* ===================================================================== *)
(** ** Values, exceptions and results *)
(* ===================================================================== *)

(** An exception instance (of a subclass of [Exception]):
    [type(e).__name__], [str(e)], and whether it is a
    [requests.RequestException]. *)
Record PyExc := mkExc {
  exc_kind : string;
  exc_msg : string;
  exc_is_request : bool
}.

Inductive result (A : Type) : Type :=
| Ok (a : A)
| Raise (e : PyExc).
Arguments Ok {A} a.
Arguments Raise {A} e.

(** A Python value as the pipeline receives it in a cell or an argument:
    a [str]; a missing value ([None], [NaN], [NaT], [pd.NA]: [pd.isna] is
    true); or any other object, given by what [str(obj)] evaluates to. *)
Inductive cell : Type :=
| CStr (s : string)
| CMissing
| CObject (str_of : result string).

(* ===================================================================== *)
(** ** Domain extractor *)
(* ===================================================================== *)

Definition GENERIC_EMAIL_DOMAINS : gset string :=
  {[ "gmail.com"; "outlook.com"; "hotmail.com"; "live.com";
     "yahoo.com"; "icloud.com"; "proton.me"; "protonmail.com";
     "orange.fr"; "free.fr"; "skynet.be"; "telenet.be"; "sfr.fr";
     "gmx.com"; "gmx.net" ]}.

(** The four chained [replace] calls of the basic clean-up. *)
Definition clean_domain (domain : string) : string :=
  PyStr.remove "," (PyStr.remove ";" (PyStr.remove "<" (PyStr.remove ">" domain))).

Definition extract_domain_from_email (email : cell) : option string :=
  match email with
  | CStr email =>
      let email := PyStr.strip email in
      if negb (PyStr.contains "@" email) then None
      else
        match PyStr.split "@" email with
        | [_; part] =>
            let domain := PyStr.lower (PyStr.strip part) in
            if PyStr.is_empty domain
               || bool_decide (domain ∈ GENERIC_EMAIL_DOMAINS)
            then None
            else
              let domain := clean_domain domain in
              if PyStr.contains "." domain then Some domain else None
        | _ => None
        end
  | _ => None
  end.

(* ===================================================================== *)
(** ** HTTP responses and the outside world *)
(* ===================================================================== *)

Module requests.

(** The fields of [requests.Response] the pipeline reads.  [text], [headers]
    and [url] may each be [None]: the code guards every one of them. *)
Record Response := mkResponse {
  status_code : Z;
  text : option string;
  headers : option (list (string * string));  (* [headers.items()], in order *)
  url : option string
}.

End requests.
Import (coercions) requests.
Abbreviation Response := requests.Response.

(** A table: [len(df.index)] and the labelled columns in order. *)
Record DataFrame := mkDataFrame {
  index_size : nat;
  cols : list (string * list cell)
}.

(** The state the code acts on: the URLs requested so far, oldest first, and
    the files written so far. *)
Record World := mkWorld {
  requests_log : list string;
  files_written : list (string * DataFrame)
}.

(** Computations that read and change the world and may raise. *)
Definition M (A : Type) : Type := World -> result A * World.

Definition ret {A} (a : A) : M A := fun w => (Ok a, w).

Definition raise {A} (e : PyExc) : M A := fun w => (Raise e, w).

Definition bind {A B} (m : M A) (k : A -> M B) : M B :=
  fun w =>
    match m w with
    | (Ok a, w') => k a w'
    | (Raise e, w') => (Raise e, w')
    end.

(** [try: body  except Exception as e: handler(e)] *)
Definition try_except {A} (body : M A) (handler : PyExc -> M A) : M A :=
  fun w =>
    match body w with
    | (Ok a, w') => (Ok a, w')
    | (Raise e, w') => handler e w'
    end.

(** A pure computation that may raise, run inside [M]. *)
Definition lift {A} (r : result A) : M A :=
  match r with Ok a => ret a | Raise e => raise e end.

Declare Scope py_scope.
Delimit Scope py_scope with py.
Notation "x <- m ;; k" := (bind m (fun x => k))
  (at level 100, m at next level, right associativity) : py_scope.
Local Open Scope py_scope.

(** A [for] loop whose body may [return]: the body yields [Some r] when it
    returns [r] from the enclosing function and [None] when the loop goes
    on to the next element. *)
Fixpoint for_returning {A R} (l : list A) (body : A -> M (option R))
  : M (option R) :=
  match l with
  | [] => ret None
  | x :: rest =>
      r <- body x ;;
      match r with
      | Some v => ret (Some v)
      | None => for_returning rest body
      end
  end.

(* ===================================================================== *)
(** ** URL prober *)
(* ===================================================================== *)

Section Prober.

(** The network: what [requests.get(url, headers=HEADERS, timeout=10,
    allow_redirects=True)] answers, given the URLs requested before it.  The
    answer is a response or a raised exception. *)
Variable requests_get : list string -> string -> result Response.

Definition http_get (url : string) : M Response :=
  fun w =>
    (requests_get (requests_log w) url,
     {| requests_log := requests_log w ++ [url];
        files_written := files_written w |}).

Definition is_not_None {A} (o : option A) : bool :=
  match o with Some _ => true | None => false end.

(** The body of the inner loop: one attempt.  [Some found] is the
    [return resp.url, resp]; [None] lets the loop go on, after a response
    that does not qualify or after a [requests.RequestException]. *)
Definition try_url (url : string)
  : M (option (option string * option Response)) :=
  try_except
    (resp <- http_get url ;;
     if (200 <=? requests.status_code resp)%Z
        && (requests.status_code resp <? 400)%Z
        && is_not_None (requests.text resp)
     then ret (Some (requests.url resp, Some resp))
     else ret None)
    (fun e => if exc_is_request e then ret None else raise e).

Definition guess_website_url (domain : string)
  : M (option string * option Response) :=
  if PyStr.is_empty domain then ret (None, None)
  else
    let schemes := ["https://"; "http://"] in
    let prefixes := [""; "www."] in
    r <- for_returning schemes (fun scheme =>
           for_returning prefixes (fun prefix =>
             try_url (scheme +:+ prefix +:+ domain))) ;;
    match r with
    | Some found => ret found
    | None => ret (None, None)
    end.

End Prober.

(* ===================================================================== *)
(** ** CMS classifier *)
(* ===================================================================== *)

(** The double-quote character and the two generator meta-tag markers that
    contain it. *)
Definition DQUOTE : string := String (ascii_of_nat 34) EmptyString.

Definition ODOO_GENERATOR : string :=
  "meta name=" +:+ DQUOTE +:+ "generator" +:+ DQUOTE
  +:+ " content=" +:+ DQUOTE +:+ "odoo" +:+ DQUOTE.

Definition WORDPRESS_GENERATOR : string :=
  "meta name=" +:+ DQUOTE +:+ "generator" +:+ DQUOTE
  +:+ " content=" +:+ DQUOTE +:+ "wordpress".

(** [{k.lower(): str(v).lower() for k, v in items}]: a later item replaces
    an earlier one with the same lowercased key. *)
Definition lower_headers (items : list (string * string)) : gmap string string :=
  foldl (fun m kv => <[PyStr.lower kv.1 := PyStr.lower kv.2]> m) ∅ items.

(** [key in headers] *)
Definition has_key (key : string) (headers : gmap string string) : bool :=
  bool_decide (is_Some (headers !! key)).

(** [headers.get(key, "")] *)
Definition get_or_empty (key : string) (headers : gmap string string) : string :=
  default "" (headers !! key).

Definition detect_cms_from_response (resp : option Response) : string :=
  match resp with
  | None => "Unknown / No site"
  | Some resp =>
      let html := PyStr.lower (default "" (requests.text resp)) in
      let headers := lower_headers (default [] (requests.headers resp)) in
      let url := PyStr.lower (default "" (requests.url resp)) in
      if PyStr.contains "cdn.shopify.com" html
         || PyStr.contains "shopify-checkout" html
         || PyStr.contains "myshopify.com" url
         || has_key "x-shopify-stage" headers
      then "Shopify"
      else if PyStr.contains "wixstatic.com" html
         || PyStr.contains "wix.com" html
         || has_key "x-wix-request-id" headers
      then "Wix"
      else if PyStr.contains "web.assets_frontend" html
         || PyStr.contains "/web/content/" html
         || PyStr.contains ODOO_GENERATOR html
         || PyStr.contains "odoo" (get_or_empty "set-cookie" headers)
      then "Odoo"
      else if PyStr.contains "/wp-content/" html
         || PyStr.contains "/wp-includes/" html
         || PyStr.contains "wp-json" html
         || PyStr.contains WORDPRESS_GENERATOR html
      then
        if PyStr.contains "woocommerce" html
        then "WordPress + WooCommerce"
        else "WordPress"
      else if PyStr.contains "prestashop" html
         || PyStr.contains "powered by prestashop" html
      then "PrestaShop"
      else if PyStr.contains "static1.squarespace.com" html
         || PyStr.contains "squarespace.com" html
      then "Squarespace"
      else "Unknown / Custom"
  end.

(* ===================================================================== *)
(** ** Tables *)
(* ===================================================================== *)

(** [df.columns] *)
Definition columns (df : DataFrame) : list string := map fst (cols df).

Fixpoint lookup_column (label : string) (cs : list (string * list cell))
  : option (list cell) :=
  match cs with
  | [] => None
  | (l, values) :: rest =>
      if String.eqb l label then Some values else lookup_column label rest
  end.

(** [df[label]] for a table whose labels are distinct: the column's values
    in row order, or [KeyError]. *)
Definition get_column (df : DataFrame) (label : string) : result (list cell) :=
  match lookup_column label (cols df) with
  | Some values => Ok values
  | None => Raise (mkExc "KeyError" label false)
  end.

Fixpoint replace_column (label : string) (values : list cell)
  (cs : list (string * list cell)) : list (string * list cell) :=
  match cs with
  | [] => [(label, values)]
  | (l, old) :: rest =>
      if String.eqb l label then (l, values) :: rest
      else (l, old) :: replace_column label values rest
  end.

(** [df[label] = values] for a list of values: an existing column is
    replaced in place, a new one is appended; a list whose length is not
    that of the index is refused with [ValueError]. *)
Definition set_column (df : DataFrame) (label : string) (values : list cell)
  : result DataFrame :=
  if (length values =? index_size df)%nat
  then Ok {| index_size := index_size df;
             cols := replace_column label values (cols df) |}
  else Raise (mkExc "ValueError"
                "Length of values does not match length of index" false).

Fixpoint distinct (labels : list string) : bool :=
  match labels with
  | [] => true
  | l :: rest => negb (existsb (String.eqb l) rest) && distinct rest
  end.

(** A table is well formed when its labels are distinct and every column
    has one value per row. *)
Definition wf_df (df : DataFrame) : bool :=
  distinct (columns df)
  && forallb (fun c => (length (snd c) =? index_size df)%nat) (cols df).

(** [str(value)] as [astype(str)] applies it to a value of a column; a
    missing value prints as a word without "@". *)
Definition cell_to_str (c : cell) : result string :=
  match c with
  | CStr s => Ok s
  | CMissing => Ok "nan"
  | CObject r => r
  end.

(** [df[col].astype(str).str.contains("@", na=False).sum()], or the
    exception [astype] raised. *)
Fixpoint count_at (values : list cell) : result Z :=
  match values with
  | [] => Ok 0%Z
  | c :: rest =>
      match cell_to_str c with
      | Raise e => Raise e
      | Ok s =>
          match count_at rest with
          | Raise e => Raise e
          | Ok n => Ok (if PyStr.contains "@" s then (n + 1)%Z else n)
          end
      end
  end.

(** The first loop of [find_email_column]: the first label that reads
    "email" once trimmed and lowercased. *)
Fixpoint first_named_email (labels : list string) : option string :=
  match labels with
  | [] => None
  | col :: rest =>
      if String.eqb (PyStr.lower (PyStr.strip col)) "email" then Some col
      else first_named_email rest
  end.

(** The second loop: the running [(best_col, best_score)]; a column whose
    conversion raises is skipped. *)
Fixpoint best_at_column (cs : list (string * list cell))
  (best : option string * Z) : option string * Z :=
  match cs with
  | [] => best
  | (col, values) :: rest =>
      match count_at values with
      | Ok score =>
          if (snd best <? score)%Z then best_at_column rest (Some col, score)
          else best_at_column rest best
      | Raise _ => best_at_column rest best
      end
  end.

(** [df.columns[0]] *)
Definition first_column (df : DataFrame) : result string :=
  match columns df with
  | col :: _ => Ok col
  | [] => Raise (mkExc "IndexError"
             "index 0 is out of bounds for axis 0 with size 0" false)
  end.

Definition find_email_column (df : DataFrame) : result string :=
  match first_named_email (columns df) with
  | Some col => Ok col
  | None =>
      let '(best_col, best_score) := best_at_column (cols df) (None, (-1)%Z) in
      match best_col with
      | Some col => if (0 <? best_score)%Z then Ok col else first_column df
      | None => first_column df
      end
  end.

(* ===================================================================== *)
(** ** Row pipeline *)
(* ===================================================================== *)

Section RowPipeline.

Variable requests_get : list string -> string -> result Response.

(** ["" if pd.isna(email) else str(email).strip()] *)
Definition email_to_str (email : cell) : result string :=
  match email with
  | CMissing => Ok ""
  | CStr s => Ok (PyStr.strip s)
  | CObject (Ok s) => Ok (PyStr.strip s)
  | CObject (Raise e) => Raise e
  end.

Definition detect_cms_for_email_with_url (email : cell) : M (string * string) :=
  email_str <- lift (email_to_str email) ;;
  match extract_domain_from_email (CStr email_str) with
  | None => ret ("No domain / Generic email", "")
  | Some domain =>
      found <- guess_website_url requests_get domain ;;
      let '(url, resp) := found in
      match url, resp with
      | Some url, Some resp => ret (detect_cms_from_response (Some resp), url)
      | _, _ => ret ("Unknown / No site", "")
      end
  end.

(** The three result lists [process_dataframe] appends to. *)
Record Results := mkResults {
  cms_results : list string;
  urls_results : list string;
  error_details : list string
}.

Definition append_row (acc : Results) (row : string * string * string) : Results :=
  let '(cms, final_url, detail) := row in
  {| cms_results := cms_results acc ++ [cms];
     urls_results := urls_results acc ++ [final_url];
     error_details := error_details acc ++ [detail] |}.

(** The body of the loop over the email column: what one row appends to the
    three lists. *)
Definition process_row (email : cell) : M (string * string * string) :=
  try_except
    (found <- detect_cms_for_email_with_url email ;;
     let '(cms, final_url) := found in
     ret (cms, final_url, ""))
    (fun e => ret ("Error", "", exc_kind e +:+ ": " +:+ exc_msg e)).

Fixpoint for_emails (emails : list cell) (acc : Results) : M Results :=
  match emails with
  | [] => ret acc
  | email :: rest =>
      row <- process_row email ;;
      for_emails rest (append_row acc row)
  end.

Definition process_dataframe (df : DataFrame) : M DataFrame :=
  email_col <- lift (find_email_column df) ;;
  emails <- lift (get_column df email_col) ;;
  res <- for_emails emails (mkResults [] [] []) ;;
  let df_out := df in
  df_out <- lift (set_column df_out "cms_detected" (map CStr (cms_results res))) ;;
  df_out <- lift (set_column df_out "detected_url" (map CStr (urls_results res))) ;;
  df_out <- lift (set_column df_out "error_detail" (map CStr (error_details res))) ;;
  ret df_out.

(** The file system: what [pd.read_excel(path)] returns or raises, and the
    exception, if any, with which [to_excel] refuses to write a path. *)
Variable read_excel : string -> result DataFrame.
Variable to_excel_error : string -> option PyExc.

(** [df.to_excel(path, index=False, engine="openpyxl")] *)
Definition to_excel (df : DataFrame) (path : string) : M unit :=
  fun w =>
    match to_excel_error path with
    | Some e => (Raise e, w)
    | None =>
        (Ok tt, {| requests_log := requests_log w;
                   files_written := files_written w ++ [(path, df)] |})
    end.

Definition process_excel (input_path : string) (output_path : option string)
  : M string :=
  df <- lift (read_excel input_path) ;;
  df_out <- process_dataframe df ;;
  let output_path :=
    match output_path with
    | Some p => p
    | None =>
        if PyStr.endswith ".xlsx" (PyStr.lower input_path)
        then PyStr.slice_to_neg 5 input_path +:+ "_with_cms.xlsx"
        else input_path +:+ "_with_cms.xlsx"
    end in
  _ <- to_excel df_out output_path ;;
  ret output_path.

End RowPipeline.

(* ===================================================================== *)
(** ** The specification's vocabulary *)
(* ===================================================================== *)

(** What the classifier matches against: the lowercased body, the
    lowercased headers and the lowercased final URL of a response. *)
Record Page := mkPage {
  page_html : string;
  page_headers : gmap string string;
  page_url : string
}.

Definition page_of (resp : Response) : Page :=
  {| page_html := PyStr.lower (default "" (requests.text resp));
     page_headers := lower_headers (default [] (requests.headers resp));
     page_url := PyStr.lower (default "" (requests.url resp)) |}.

(** The marker sets of the specification, one predicate per platform. *)
Definition shopify_marker (p : Page) : bool :=
  PyStr.contains "cdn.shopify.com" (page_html p)
  || PyStr.contains "shopify-checkout" (page_html p)
  || PyStr.contains "myshopify.com" (page_url p)
  || has_key "x-shopify-stage" (page_headers p).

Definition wix_marker (p : Page) : bool :=
  PyStr.contains "wixstatic.com" (page_html p)
  || PyStr.contains "wix.com" (page_html p)
  || has_key "x-wix-request-id" (page_headers p).

Definition odoo_marker (p : Page) : bool :=
  PyStr.contains "web.assets_frontend" (page_html p)
  || PyStr.contains "/web/content/" (page_html p)
  || PyStr.contains ODOO_GENERATOR (page_html p)
  || PyStr.contains "odoo" (get_or_empty "set-cookie" (page_headers p)).

Definition wordpress_marker (p : Page) : bool :=
  PyStr.contains "/wp-content/" (page_html p)
  || PyStr.contains "/wp-includes/" (page_html p)
  || PyStr.contains "wp-json" (page_html p)
  || PyStr.contains WORDPRESS_GENERATOR (page_html p).

Definition prestashop_marker (p : Page) : bool :=
  PyStr.contains "prestashop" (page_html p)
  || PyStr.contains "powered by prestashop" (page_html p).

Definition squarespace_marker (p : Page) : bool :=
  PyStr.contains "static1.squarespace.com" (page_html p)
  || PyStr.contains "squarespace.com" (page_html p).

(** The label of a page that matched the WordPress markers. *)
Definition wordpress_label (p : Page) : string :=
  if PyStr.contains "woocommerce" (page_html p)
  then "WordPress + WooCommerce" else "WordPress".

(** The priority order of the specification: marker set and label, first
    match wins. *)
Definition PRIORITY : list ((Page -> bool) * (Page -> string)) :=
  [ (shopify_marker, fun _ => "Shopify");
    (wix_marker, fun _ => "Wix");
    (odoo_marker, fun _ => "Odoo");
    (wordpress_marker, wordpress_label);
    (prestashop_marker, fun _ => "PrestaShop");
    (squarespace_marker, fun _ => "Squarespace") ].

Fixpoint first_match (table : list ((Page -> bool) * (Page -> string)))
  (p : Page) : string :=
  match table with
  | [] => "Unknown / Custom"
  | (marker, label) :: rest =>
      if marker p then label p else first_match rest p
  end.

(** The classifier as the specification words it. *)
Definition classify (probe : option Response) : string :=
  match probe with
  | None => "Unknown / No site"
  | Some resp => first_match PRIORITY (page_of resp)
  end.

(** The nine labels the classifier can produce. *)
Definition CLASSIFIER_LABELS : list string :=
  [ "Unknown / No site"; "Shopify"; "Wix"; "Odoo";
    "WordPress + WooCommerce"; "WordPress"; "PrestaShop"; "Squarespace";
    "Unknown / Custom" ].

(** The labels of a row for which no probe result was obtained. *)
Definition NO_PROBE_LABELS : list string :=
  [ "No domain / Generic email"; "Unknown / No site"; "Error" ].

(** The four URLs of the specification, in its order. *)
Definition candidate_urls (domain : string) : list string :=
  [ "https://" +:+ domain; "https://www." +:+ domain;
    "http://" +:+ domain; "http://www." +:+ domain ].

(** An attempt qualifies when its status is in [200, 400) and it has a
    body. *)
Definition qualifies (resp : Response) : bool :=
  (200 <=? requests.status_code resp)%Z
  && (requests.status_code resp <? 400)%Z
  && is_not_None (requests.text resp).

(** An attempt the prober passes over: a response that does not qualify, or
    a transport-level failure. *)
Definition passed_over (outcome : result Response) : Prop :=
  match outcome with
  | Ok resp => qualifies resp = false
  | Raise e => exc_is_request e = true
  end.

(** The world after the requests [urls] were made, in that order. *)
Definition log_requests (w : World) (urls : list string) : World :=
  {| requests_log := requests_log w ++ urls;
     files_written := files_written w |}.

(** A network whose answers do not depend on the requests made before. *)
Definition stateless (requests_get : list string -> string -> result Response)
  : Prop :=
  forall log log' url, requests_get log url = requests_get log' url.

(** The output name as the specification words it: the suffix "_with_cms"
    before the extension, or after the name when there is no recognized
    extension. *)
Definition spec_output_name (input_path : string) : string :=
  if PyStr.endswith ".xlsx" (PyStr.lower input_path)
  then PyStr.slice_to_neg 5 input_path +:+ "_with_cms"
       +:+ PyStr.drop (String.length input_path - 5) input_path
  else input_path +:+ "_with_cms".

(* ===================================================================== *)
(** ** Sample inputs *)
(* ===================================================================== *)

(** A page served by WordPress that embeds a Shopify widget. *)
Definition wordpress_with_shopify_widget : Response :=
  {| requests.status_code := 200;
     requests.text :=
       Some "<link href=/wp-content/themes/a.css><script src=//cdn.shopify.com/buy.js>";
     requests.headers := Some [("Content-Type", "text/html")];
     requests.url := Some "https://blog.example.org/" |}.

(** A WordPress page with a WooCommerce shop. *)
Definition woocommerce_page : Response :=
  {| requests.status_code := 200;
     requests.text :=
       Some "<link href=/WP-Content/plugins/WooCommerce/assets/a.css>";
     requests.headers := Some [("Server", "nginx")];
     requests.url := Some "https://shop.example.org/" |}.

(** A network on which only "https://www.example.org" answers: the other
    hosts refuse the connection. *)
Definition example_home : Response :=
  {| requests.status_code := 200;
     requests.text := Some "<html>powered by prestashop</html>";
     requests.headers := Some [("Server", "nginx")];
     requests.url := Some "https://www.example.org/" |}.

Definition example_network (log : list string) (url : string) : result Response :=
  if String.eqb url "https://www.example.org" then Ok example_home
  else Raise (mkExc "ConnectionError" "connection refused" true).

(* ===================================================================== *)
(** ** The rows of a run *)
(* ===================================================================== *)

(** The names of the three result columns. *)
Definition RESULT_COLUMNS : list string :=
  [ "cms_detected"; "detected_url"; "error_detail" ].

(** What the loop body records for the outcome of
    [detect_cms_for_email_with_url]. *)
Definition row_result (outcome : result (string * string))
  : string * string * string :=
  match outcome with
  | Ok (cms, final_url) => (cms, final_url, "")
  | Raise e => ("Error", "", exc_kind e +:+ ": " +:+ exc_msg e)
  end.

Section Runs.

Variable net : list string -> string -> result Response.

(** The world in which row [i] of the email column is processed, when the
    loop starts in [w]: the world the rows before it left behind. *)
Fixpoint world_before (emails : list cell) (w : World) (i : nat) : World :=
  match i, emails with
  | S i', email :: rest =>
      world_before rest (snd (detect_cms_for_email_with_url net email w)) i'
  | _, _ => w
  end.

(** The world the whole loop leaves behind. *)
Definition world_after (emails : list cell) (w : World) : World :=
  world_before emails w (length emails).

(** The rows the loop records, in order. *)
Fixpoint rows_from (emails : list cell) (w : World)
  : list (string * string * string) :=
  match emails with
  | [] => []
  | email :: rest =>
      let out := detect_cms_for_email_with_url net email w in
      row_result (fst out) :: rows_from rest (snd out)
  end.

(** [process_dataframe] run on [df] in the world [w] reads the cells
    [emails] of the column [find_email_column] selects and returns a table
    whose three result columns hold the rows [rows]. *)
Definition records (df : DataFrame) (w : World)
  (emails : list cell) (rows : list (string * string * string)) : Prop :=
  exists email_col df_out w',
    find_email_column df = Ok email_col
    /\ get_column df email_col = Ok emails
    /\ process_dataframe net df w = (Ok df_out, w')
    /\ index_size df_out = index_size df
    /\ get_column df_out "cms_detected" = Ok (map (fun r => CStr r.1.1) rows)
    /\ get_column df_out "detected_url" = Ok (map (fun r => CStr r.1.2) rows)
    /\ get_column df_out "error_detail" = Ok (map (fun r => CStr r.2) rows)
    /\ (forall label, ~ In label RESULT_COLUMNS ->
          get_column df_out label = get_column df label).

End Runs.

(** The three-row table of the specification's end-to-end example, with a
    missing value added as a fourth row. *)
Definition example_table : DataFrame :=
  {| index_size := 4;
     cols := [ ("name", [CStr "Ann"; CStr "Bob"; CStr "Cid"; CStr "Dan"]);
               ("Email ", [CStr "a@gmail.com"; CStr "b@example.org";
                           CObject (Raise (mkExc "TypeError" "no str" false));
                           CMissing]) ] |}.

(** A computation whose result does not depend on the world it runs in. *)
Definition world_indep {A} (m : M A) : Prop :=
  forall w1 w2, fst (m w1) = fst (m w2).

(** A file system on which every path reads as [example_table] and every
    write succeeds. *)
Definition example_read_excel (path : string) : result DataFrame :=
  Ok example_table.

Definition example_to_excel_error (path : string) : option PyExc := None.

(* ===================================================================== *)
(** ** The front end ([app_gui.py]) *)
(* ===================================================================== *)







Section FrontEnd.

Variable requests_get : list string -> string -> result Response.
Variable read_excel : string -> result DataFrame.
Variable to_excel_error : string -> option PyExc.

(** [os.path.basename], which depends on the platform. *)
Variable basename : string -> string.




End FrontEnd.

(* ===================================================================== *)
(** ** Further vocabulary *)
(* ===================================================================== *)

(** The number of occurrences of a character in a string. *)
Fixpoint count_char (c : ascii) (s : string) : nat :=
  match s with
  | EmptyString => 0
  | String a s' => (if Ascii.eqb a c then 1 else 0) + count_char c s'
  end.

(** Every label a row can carry. *)
Definition ALL_LABELS : list string :=
  CLASSIFIER_LABELS ++ [ "No domain / Generic email"; "Error" ].

(** A network on which the bare host refuses the connection and the
    www host makes the client fail with an error that is no
    [RequestException]. *)
Definition broken_network (log : list string) (url : string) : result Response :=
  if String.eqb url "https://www.example.org"
  then Raise (mkExc "UnicodeError" "label too long" false)
  else Raise (mkExc "ConnectionError" "connection refused" true).

Example extract_ex1 :
  extract_domain_from_email (CStr "contact@MonSite.COM;") = Some "monsite.com".
Proof. vm_compute. reflexivity. Qed.

Example extract_ex2 :
  extract_domain_from_email (CStr "user@gmail.com") = None.
Proof. vm_compute. reflexivity. Qed.

Example extract_ex3 :
  extract_domain_from_email (CStr "user@gmail.com;") = Some "gmail.com".
Proof. vm_compute. reflexivity. Qed.

(* ===================================================================== *)
(** ** Facts about the string methods *)
(* ===================================================================== *)

Module PyStrFacts.
Import PyStr.

Lemma at_not_space : is_space "@" = false.
Proof. reflexivity. Qed.

(** stdpp keeps [String.append] from simplifying; its two equations. *)
Lemma append_nil_l s : "" +:+ s = s.
Proof. reflexivity. Qed.

Lemma append_cons c x s : String c x +:+ s = String c (x +:+ s).
Proof. reflexivity. Qed.

Ltac step_append := rewrite ?append_nil_l, ?append_cons.

Lemma is_empty_false s : s <> "" -> is_empty s = false.
Proof. destruct s; [congruence | reflexivity]. Qed.

Lemma contains_cons sub c s :
  contains sub (String c s) = startswith sub (String c s) || contains sub s.
Proof. reflexivity. Qed.

Lemma contains_char_cons a c s :
  contains (String a EmptyString) (String c s)
  = Ascii.eqb a c || contains (String a EmptyString) s.
Proof. rewrite contains_cons. simpl. now rewrite andb_true_r. Qed.

Lemma contains_char_app_r a x y :
  contains (String a EmptyString) (x +:+ String a y) = true.
Proof.
  induction x as [|c x IH]; step_append.
  - rewrite contains_char_cons, Ascii.eqb_refl. reflexivity.
  - rewrite contains_char_cons, IH. apply orb_true_r.
Qed.

Lemma split_without sep x :
  contains (String sep EmptyString) x = false -> split sep x = [x].
Proof.
  induction x as [|c x IH]; [reflexivity|].
  rewrite contains_char_cons. intros H.
  apply orb_false_elim in H as [Hc Hx].
  cbn [split]. rewrite Ascii.eqb_sym, Hc, (IH Hx). reflexivity.
Qed.

Lemma split_app sep x y :
  contains (String sep EmptyString) x = false ->
  split sep (x +:+ String sep y) = x :: split sep y.
Proof.
  induction x as [|c x IH]; intros H.
  - step_append. cbn [split]. now rewrite Ascii.eqb_refl.
  - rewrite contains_char_cons in H. apply orb_false_elim in H as [Hc Hx].
    step_append. cbn [split]. rewrite Ascii.eqb_sym, Hc, (IH Hx). reflexivity.
Qed.

Lemma lstrip_app_nonspace x c y :
  is_space c = false -> lstrip (x +:+ String c y) = lstrip x +:+ String c y.
Proof.
  intros Hc. induction x as [|a x IH]; step_append; cbn [lstrip].
  - now rewrite Hc.
  - destruct (is_space a); [exact IH | reflexivity].
Qed.

Lemma rstrip_cons_nonspace c y :
  is_space c = false -> rstrip (String c y) = String c (rstrip y).
Proof.
  intros Hc. cbn [rstrip]. destruct (rstrip y); [now rewrite Hc | reflexivity].
Qed.

Lemma rstrip_app_nonspace x c y :
  is_space c = false -> rstrip (x +:+ String c y) = x +:+ String c (rstrip y).
Proof.
  intros Hc. induction x as [|a x IH]; step_append.
  - now apply rstrip_cons_nonspace.
  - cbn [rstrip]. rewrite IH.
    destruct x; reflexivity.
Qed.

Lemma lstrip_no_char a x :
  contains (String a EmptyString) x = false ->
  contains (String a EmptyString) (lstrip x) = false.
Proof.
  induction x as [|c x IH]; [reflexivity|].
  intros H. cbn [lstrip]. destruct (is_space c); [|exact H].
  rewrite contains_char_cons in H. apply orb_false_elim in H as [_ Hx]. auto.
Qed.

Lemma rstrip_no_char a x :
  contains (String a EmptyString) x = false ->
  contains (String a EmptyString) (rstrip x) = false.
Proof.
  induction x as [|c x IH]; [reflexivity|].
  rewrite contains_char_cons. intros H.
  apply orb_false_elim in H as [Hc Hx]. specialize (IH Hx).
  cbn [rstrip]. destruct (rstrip x) eqn:E.
  - destruct (is_space c); [reflexivity|].
    rewrite contains_char_cons, Hc. reflexivity.
  - rewrite contains_char_cons, Hc, IH. reflexivity.
Qed.

Lemma lstrip_rstrip x : lstrip (rstrip x) = rstrip (lstrip x).
Proof.
  induction x as [|c x IH]; [reflexivity|].
  destruct (is_space c) eqn:Hc.
  - cbn [lstrip]. rewrite Hc, <- IH. cbn [rstrip].
    destruct (rstrip x) eqn:E.
    + rewrite Hc. reflexivity.
    + cbn [lstrip]. rewrite Hc. reflexivity.
  - cbn [lstrip]. rewrite Hc, (rstrip_cons_nonspace c x Hc).
    cbn [lstrip]. now rewrite Hc.
Qed.

Lemma rstrip_cons_nonempty c y :
  rstrip y <> "" -> rstrip (String c y) = String c (rstrip y).
Proof. intros H. cbn [rstrip]. destruct (rstrip y); congruence. Qed.

Lemma rstrip_idem x : rstrip (rstrip x) = rstrip x.
Proof.
  induction x as [|c x IH]; [reflexivity|].
  cbn [rstrip]. destruct (rstrip x) as [|a r] eqn:E.
  - destruct (is_space c) eqn:Hc; [reflexivity|].
    cbn [rstrip]. now rewrite Hc.
  - rewrite rstrip_cons_nonempty; rewrite IH; congruence.
Qed.

Lemma strip_rstrip x : strip (rstrip x) = strip x.
Proof. unfold strip. now rewrite lstrip_rstrip, rstrip_idem. Qed.

(** What [email.strip()] followed by [split("@")] sees of an address with
    exactly one "@". *)
Lemma split_strip_one_at before after :
  contains "@" before = false ->
  contains "@" after = false ->
  split "@" (strip (before +:+ String "@" after))
  = [lstrip before; rstrip after].
Proof.
  intros Hb Ha. unfold strip.
  rewrite (lstrip_app_nonspace _ _ _ at_not_space).
  rewrite (rstrip_app_nonspace _ _ _ at_not_space).
  rewrite split_app by now apply lstrip_no_char.
  rewrite split_without by now apply rstrip_no_char.
  reflexivity.
Qed.

Lemma contains_strip_one_at before after :
  contains "@" (strip (before +:+ String "@" after)) = true.
Proof.
  unfold strip.
  rewrite (lstrip_app_nonspace _ _ _ at_not_space).
  rewrite (rstrip_app_nonspace _ _ _ at_not_space).
  apply contains_char_app_r.
Qed.

End PyStrFacts.

(* ===================================================================== *)
(** ** Domain extractor: properties *)
(* ===================================================================== *)

Section Extractor.
Import PyStr PyStrFacts.

(** No entry of the exclusion set holds a character the clean-up removes. *)
Lemma clean_generic domain :
  domain ∈ GENERIC_EMAIL_DOMAINS -> clean_domain domain = domain.
Proof.
  unfold GENERIC_EMAIL_DOMAINS. intros H.
  repeat (apply elem_of_union in H as [H|H]);
    apply elem_of_singleton in H; subst domain; reflexivity.
Qed.

Lemma remove_nonempty c s : remove c s <> "" -> s <> "".
Proof. destruct s; [cbn; congruence | discriminate]. Qed.

Lemma clean_nonempty s : clean_domain s <> "" -> s <> "".
Proof.
  unfold clean_domain. intros H.
  repeat apply remove_nonempty in H. exact H.
Qed.

(** The function on an address with exactly one "@": the exclusion test is
    made on the trimmed, lowercased part, before the clean-up. *)
Lemma extract_one_at before after :
  contains "@" before = false ->
  contains "@" after = false ->
  extract_domain_from_email (CStr (before +:+ String "@" after))
  = let domain := lower (strip after) in
    if is_empty domain || bool_decide (domain ∈ GENERIC_EMAIL_DOMAINS)
    then None
    else if contains "." (clean_domain domain)
         then Some (clean_domain domain) else None.
Proof.
  intros Hb Ha. unfold extract_domain_from_email.
  rewrite contains_strip_one_at. cbn [negb].
  rewrite (split_strip_one_at _ _ Hb Ha), strip_rstrip. reflexivity.
Qed.

(** An address whose trimmed, lowercased part after the "@" is itself an
    entry of the exclusion set has no domain. *)
Lemma extract_rejects_generic before after :
  contains "@" before = false ->
  contains "@" after = false ->
  lower (strip after) ∈ GENERIC_EMAIL_DOMAINS ->
  extract_domain_from_email (CStr (before +:+ String "@" after)) = None.
Proof.
  intros Hb Ha Hin. rewrite (extract_one_at _ _ Hb Ha). cbn zeta.
  rewrite (bool_decide_eq_true_2 _ Hin), orb_true_r. reflexivity.
Qed.

(** C1 (the code at the failing input).  The address "user@gmail.com;" has
    one "@"; the part after it, trimmed, lowercased and cleaned of '>', '<',
    ';' and ',', is "gmail.com", an entry of the exclusion set; the
    function nevertheless returns "gmail.com", because it tests the
    exclusion set before the clean-up. *)
Theorem extract_domain_generic_after_cleanup :
  clean_domain (lower (strip "gmail.com;")) = "gmail.com"
  /\ "gmail.com" ∈ GENERIC_EMAIL_DOMAINS
  /\ extract_domain_from_email (CStr "user@gmail.com;") = Some "gmail.com".
Proof.
  split; [reflexivity|]. split; [|vm_compute; reflexivity].
  unfold GENERIC_EMAIL_DOMAINS. set_solver.
Qed.

(** C7.  For an address with exactly one "@" whose part after the "@",
    trimmed, lowercased and cleaned of '>', '<', ';' and ',', is not empty,
    contains a dot and is not an entry of the exclusion set, the function
    returns that cleaned lowercase domain. *)
Theorem extract_domain_cleaned (before after : string) :
  contains "@" before = false ->
  contains "@" after = false ->
  clean_domain (lower (strip after)) <> "" ->
  contains "." (clean_domain (lower (strip after))) = true ->
  clean_domain (lower (strip after)) ∉ GENERIC_EMAIL_DOMAINS ->
  extract_domain_from_email (CStr (before +:+ String "@" after))
  = Some (clean_domain (lower (strip after))).
Proof.
  intros Hb Ha Hne Hdot Hnot. rewrite (extract_one_at _ _ Hb Ha). cbn zeta.
  rewrite (is_empty_false _ (clean_nonempty _ Hne)). cbn [orb].
  case_bool_decide as Hin.
  - exfalso. apply Hnot. now rewrite (clean_generic _ Hin).
  - now rewrite Hdot.
Qed.

(** C7 at the address of the specification: "contact@MonSite.COM;" yields
    "monsite.com". *)
Lemma extract_domain_cleaned_witness :
  contains "@" "contact" = false
  /\ contains "@" "MonSite.COM;" = false
  /\ clean_domain (lower (strip "MonSite.COM;")) = "monsite.com"
  /\ extract_domain_from_email (CStr "contact@MonSite.COM;") = Some "monsite.com".
Proof.
  split; [reflexivity|]. split; [reflexivity|]. split; [reflexivity|].
  apply (extract_domain_cleaned "contact" "MonSite.COM;").
  - reflexivity.
  - reflexivity.
  - discriminate.
  - reflexivity.
  - apply (bool_decide_eq_false_1 _). vm_compute. reflexivity.
Defined.

End Extractor.

(* ===================================================================== *)
(** ** CMS classifier: properties *)
(* ===================================================================== *)

Section Classifier.
Import PyStr PyStrFacts.

Lemma startswith_map f p s :
  startswith p s = true -> startswith (map_chars f p) (map_chars f s) = true.
Proof.
  revert s. induction p as [|a p IH]; intros [|b s]; cbn; try easy.
  intros H. apply andb_prop in H as [Hab Hps].
  apply Ascii.eqb_eq in Hab. subst b.
  now rewrite Ascii.eqb_refl, (IH _ Hps).
Qed.

Lemma contains_map f p s :
  contains p s = true -> contains (map_chars f p) (map_chars f s) = true.
Proof.
  induction s as [|c s IH]; intros H.
  - cbn in H. rewrite orb_false_r in H.
    apply (startswith_map f) in H. cbn. now rewrite orb_false_r.
  - rewrite contains_cons in H. apply orb_prop in H as [H|H].
    + apply (startswith_map f) in H. cbn [map_chars] in *.
      rewrite contains_cons, H. reflexivity.
    + cbn [map_chars]. rewrite contains_cons, (IH H). apply orb_true_r.
Qed.

(** A marker written in lowercase that occurs in a text occurs in the
    lowercased text. *)
Lemma contains_lower sub s :
  lower sub = sub -> contains sub s = true -> contains sub (lower s) = true.
Proof. intros Hsub H. rewrite <- Hsub. now apply contains_map. Qed.

(** The chain of tests of the code, read with the marker sets. *)
Lemma detect_cms_unfold resp :
  detect_cms_from_response (Some resp)
  = let p := page_of resp in
    if shopify_marker p then "Shopify"
    else if wix_marker p then "Wix"
    else if odoo_marker p then "Odoo"
    else if wordpress_marker p then wordpress_label p
    else if prestashop_marker p then "PrestaShop"
    else if squarespace_marker p then "Squarespace"
    else "Unknown / Custom".
Proof. reflexivity. Qed.

Lemma detect_cms_classify probe :
  detect_cms_from_response probe = classify probe.
Proof. destruct probe as [resp|]; reflexivity. Qed.

Lemma shopify_cdn_in_body resp body :
  requests.text resp = Some body ->
  contains "cdn.shopify.com" body = true ->
  shopify_marker (page_of resp) = true.
Proof.
  intros Ht Hc. unfold shopify_marker, page_of. cbn [page_html].
  rewrite Ht. cbn [default from_option id].
  now rewrite (contains_lower "cdn.shopify.com" body eq_refl Hc).
Qed.

(** C3.  No result maps to "Unknown / No site"; a response is classified by
    the first marker set it matches in the order Shopify, Wix, Odoo,
    WordPress, PrestaShop, Squarespace, with "Unknown / Custom" as default;
    and a body that contains "cdn.shopify.com" is labelled "Shopify"
    whatever else it contains. *)
Theorem detect_cms_priority_order :
  detect_cms_from_response None = "Unknown / No site"
  /\ (forall resp : Response,
        detect_cms_from_response (Some resp)
        = first_match PRIORITY (page_of resp))
  /\ (forall (resp : Response) (body : string),
        requests.text resp = Some body ->
        contains "cdn.shopify.com" body = true ->
        detect_cms_from_response (Some resp) = "Shopify").
Proof.
  split; [reflexivity|]. split.
  - intros resp. exact (detect_cms_classify (Some resp)).
  - intros resp body Ht Hc. rewrite detect_cms_unfold. cbn zeta.
    now rewrite (shopify_cdn_in_body resp body Ht Hc).
Qed.

(** C3 on a page with WordPress markers and a Shopify widget: the label is
    "Shopify". *)
Lemma detect_cms_priority_order_witness :
  contains "/wp-content/"
    (lower (default "" (requests.text wordpress_with_shopify_widget))) = true
  /\ detect_cms_from_response (Some wordpress_with_shopify_widget) = "Shopify".
Proof.
  split; [reflexivity|].
  apply (proj2 (proj2 detect_cms_priority_order)
           wordpress_with_shopify_widget
           "<link href=/wp-content/themes/a.css><script src=//cdn.shopify.com/buy.js>").
  - reflexivity.
  - reflexivity.
Defined.

(** C8 as stated fails: the body of this response matches a WordPress
    marker, and the label is neither "WordPress" nor
    "WordPress + WooCommerce". *)
Lemma wordpress_marker_alone_not_enough :
  wordpress_marker (page_of wordpress_with_shopify_widget) = true
  /\ detect_cms_from_response (Some wordpress_with_shopify_widget) = "Shopify"
  /\ detect_cms_from_response (Some wordpress_with_shopify_widget)
     <> wordpress_label (page_of wordpress_with_shopify_widget).
Proof.
  split; [vm_compute; reflexivity|].
  split; [vm_compute; reflexivity|].
  vm_compute. discriminate.
Qed.

(** C8, amended.  For a response that matches no Shopify, Wix or Odoo
    marker and whose lowercased body matches a WordPress marker, the label
    is "WordPress + WooCommerce" when the lowercased body also contains
    "woocommerce", and "WordPress" otherwise. *)
Theorem detect_cms_wordpress (resp : Response) :
  shopify_marker (page_of resp) = false ->
  wix_marker (page_of resp) = false ->
  odoo_marker (page_of resp) = false ->
  wordpress_marker (page_of resp) = true ->
  detect_cms_from_response (Some resp)
  = if contains "woocommerce" (lower (default "" (requests.text resp)))
    then "WordPress + WooCommerce" else "WordPress".
Proof.
  intros Hs Hw Ho Hp. rewrite detect_cms_unfold. cbn zeta.
  rewrite Hs, Hw, Ho, Hp. reflexivity.
Qed.

Lemma detect_cms_wordpress_witness :
  detect_cms_from_response (Some woocommerce_page) = "WordPress + WooCommerce".
Proof.
  apply (detect_cms_wordpress woocommerce_page); vm_compute; reflexivity.
Defined.

(** C10.  The classifier returns one of its nine labels on every input,
    and a missing response, body, header mapping or URL is handled: a
    missing field is read as an empty one. *)
Theorem detect_cms_total :
  (forall probe : option Response,
     In (detect_cms_from_response probe) CLASSIFIER_LABELS)
  /\ (forall sc h u,
        detect_cms_from_response (Some (requests.mkResponse sc None h u))
        = detect_cms_from_response (Some (requests.mkResponse sc (Some "") h u)))
  /\ (forall sc t u,
        detect_cms_from_response (Some (requests.mkResponse sc t None u))
        = detect_cms_from_response (Some (requests.mkResponse sc t (Some []) u)))
  /\ (forall sc t h,
        detect_cms_from_response (Some (requests.mkResponse sc t h None))
        = detect_cms_from_response (Some (requests.mkResponse sc t h (Some ""))))
  /\ (forall sc,
        detect_cms_from_response (Some (requests.mkResponse sc None None None))
        = "Unknown / Custom").
Proof.
  split.
  - intros [resp|]; [|cbn; auto].
    rewrite detect_cms_unfold. cbn zeta. unfold wordpress_label.
    repeat match goal with
           | |- context [if ?b then _ else _] => destruct b
           end; cbn; auto 12.
  - repeat split; intros; reflexivity.
Qed.

End Classifier.

(* ===================================================================== *)
(** ** URL prober: properties *)
(* ===================================================================== *)

Section ProberFacts.

Variable net : list string -> string -> result Response.

Lemma log_requests_nil w : log_requests w [] = w.
Proof. destruct w. unfold log_requests. cbn. now rewrite app_nil_r. Qed.

Lemma log_requests_app w l1 l2 :
  log_requests (log_requests w l1) l2 = log_requests w (l1 ++ l2).
Proof. unfold log_requests. cbn. now rewrite app_assoc. Qed.

(** One attempt, by the answer of the network. *)
Lemma try_url_run url w :
  try_url net url w
  = (match net (requests_log w) url with
     | Ok resp =>
         if qualifies resp then Ok (Some (requests.url resp, Some resp))
         else Ok None
     | Raise e => if exc_is_request e then Ok None else Raise e
     end,
     log_requests w [url]).
Proof.
  unfold try_url, try_except, bind, http_get, log_requests, qualifies.
  destruct (net (requests_log w) url) as [resp|e].
  - destruct (_ && _ && _); reflexivity.
  - destruct (exc_is_request e); reflexivity.
Qed.

Lemma try_url_passed_over url w :
  passed_over (net (requests_log w) url) ->
  try_url net url w = (Ok None, log_requests w [url]).
Proof.
  intros H. rewrite try_url_run. unfold passed_over in H.
  destruct (net (requests_log w) url) as [resp|e]; now rewrite H.
Qed.

Lemma try_url_found url w resp :
  net (requests_log w) url = Ok resp ->
  qualifies resp = true ->
  try_url net url w
  = (Ok (Some (requests.url resp, Some resp)), log_requests w [url]).
Proof. intros H Hq. now rewrite try_url_run, H, Hq. Qed.

(** The two nested loops visit the four candidate URLs in order. *)
Lemma guess_website_url_flat domain w :
  domain <> "" ->
  guess_website_url net domain w
  = match for_returning (candidate_urls domain) (try_url net) w with
    | (Ok (Some found), w') => (Ok found, w')
    | (Ok None, w') => (Ok (None, None), w')
    | (Raise e, w') => (Raise e, w')
    end.
Proof.
  intros Hne. unfold guess_website_url.
  rewrite (PyStrFacts.is_empty_false _ Hne).
  unfold candidate_urls. cbn [for_returning]. unfold bind, ret.
  change ("https://" +:+ "" +:+ domain) with ("https://" +:+ domain).
  change ("https://" +:+ "www." +:+ domain) with ("https://www." +:+ domain).
  change ("http://" +:+ "" +:+ domain) with ("http://" +:+ domain).
  change ("http://" +:+ "www." +:+ domain) with ("http://www." +:+ domain).
  destruct (try_url net ("https://" +:+ domain) w) as [[[f|]|e] w1];
    try reflexivity.
  destruct (try_url net ("https://www." +:+ domain) w1) as [[[f|]|e] w2];
    try reflexivity.
  destruct (try_url net ("http://" +:+ domain) w2) as [[[f|]|e] w3];
    try reflexivity.
  destruct (try_url net ("http://www." +:+ domain) w3) as [[[f|]|e] w4];
    reflexivity.
Qed.

(** A loop over attempts that are all passed over runs to its end. *)
Lemma for_returning_passed_over urls w :
  (forall i u, urls !! i = Some u ->
     passed_over (net (requests_log w ++ take i urls) u)) ->
  for_returning urls (try_url net) w = (Ok None, log_requests w urls).
Proof.
  revert w. induction urls as [|u0 urls IH]; intros w H.
  - cbn. now rewrite log_requests_nil.
  - cbn [for_returning]. unfold bind.
    rewrite try_url_passed_over.
    2:{ specialize (H 0 u0 eq_refl). cbn in H. now rewrite app_nil_r in H. }
    rewrite IH.
    + now rewrite log_requests_app.
    + intros i u Hi. specialize (H (S i) u Hi). cbn in H |- *.
      now rewrite <- app_assoc.
Qed.

(** A loop stops at the first attempt that qualifies. *)
Lemma for_returning_found urls : forall k w url resp,
  urls !! k = Some url ->
  (forall i u, i < k -> urls !! i = Some u ->
     passed_over (net (requests_log w ++ take i urls) u)) ->
  net (requests_log w ++ take k urls) url = Ok resp ->
  qualifies resp = true ->
  for_returning urls (try_url net) w
  = (Ok (Some (requests.url resp, Some resp)),
     log_requests w (take (S k) urls)).
Proof.
  induction urls as [|u0 urls IH]; intros k w url resp Hk Hbefore Hget Hq.
  - discriminate.
  - destruct k as [|k].
    + cbn in Hk. injection Hk as ->. cbn in Hget. rewrite app_nil_r in Hget.
      cbn [for_returning]. unfold bind.
      rewrite (try_url_found _ _ _ Hget Hq). cbn. reflexivity.
    + cbn [for_returning]. unfold bind.
      rewrite try_url_passed_over.
      2:{ specialize (Hbefore 0 u0 ltac:(lia) eq_refl). cbn in Hbefore.
          now rewrite app_nil_r in Hbefore. }
      rewrite (IH k _ url resp).
      * now rewrite log_requests_app.
      * exact Hk.
      * intros i u Hi Hu. specialize (Hbefore (S i) u ltac:(lia) Hu).
        cbn in Hbefore |- *. now rewrite <- app_assoc.
      * cbn in Hget |- *. now rewrite <- app_assoc.
      * exact Hq.
Qed.

(** C2.  For a non-empty domain the prober visits the four candidate URLs
    in order.  It stops at the first attempt that qualifies and returns its
    final URL and its response, having requested the URLs up to that one
    and no other; an attempt that ends in a transport-level failure or in a
    response that does not qualify is passed over; and when all four are
    passed over it returns no result, having requested the four. *)
Theorem guess_website_url_attempts (domain : string) (w : World) :
  domain <> "" ->
  (forall k url resp,
     candidate_urls domain !! k = Some url ->
     (forall i u, i < k -> candidate_urls domain !! i = Some u ->
        passed_over (net (requests_log w ++ take i (candidate_urls domain)) u)) ->
     net (requests_log w ++ take k (candidate_urls domain)) url = Ok resp ->
     qualifies resp = true ->
     guess_website_url net domain w
     = (Ok (requests.url resp, Some resp),
        log_requests w (take (S k) (candidate_urls domain))))
  /\ ((forall i u, candidate_urls domain !! i = Some u ->
         passed_over (net (requests_log w ++ take i (candidate_urls domain)) u)) ->
      guess_website_url net domain w
      = (Ok (None, None), log_requests w (candidate_urls domain))).
Proof.
  intros Hne. split.
  - intros k url resp Hk Hbefore Hget Hq.
    rewrite (guess_website_url_flat _ _ Hne).
    now rewrite (for_returning_found _ k w url resp Hk Hbefore Hget Hq).
  - intros Hall. rewrite (guess_website_url_flat _ _ Hne).
    now rewrite (for_returning_passed_over _ _ Hall).
Qed.

End ProberFacts.

(** C2 on a network where only the second candidate answers: the prober
    requests "https://example.org", then "https://www.example.org", and
    returns the latter's final URL and response. *)
Lemma guess_website_url_attempts_witness :
  "example.org" <> ""
  /\ guess_website_url example_network "example.org" (mkWorld [] [])
     = (Ok (Some "https://www.example.org/", Some example_home),
        mkWorld ["https://example.org"; "https://www.example.org"] []).
Proof.
  split; [discriminate|].
  apply (proj1 (guess_website_url_attempts example_network "example.org"
                  (mkWorld [] []) ltac:(discriminate))
           1 "https://www.example.org" example_home).
  - reflexivity.
  - intros i u Hi Hu. destruct i as [|i]; [|lia].
    cbn in Hu. injection Hu as <-. reflexivity.
  - reflexivity.
  - reflexivity.
Defined.

(* ===================================================================== *)
(** ** Tables: properties *)
(* ===================================================================== *)

Section TableFacts.

Lemma lookup_replace_eq label values cs :
  lookup_column label (replace_column label values cs) = Some values.
Proof.
  induction cs as [|[l old] cs IH]; cbn.
  - now rewrite String.eqb_refl.
  - destruct (String.eqb l label) eqn:E; cbn; now rewrite E.
Qed.

Lemma lookup_replace_ne label label' values cs :
  label <> label' ->
  lookup_column label' (replace_column label values cs) = lookup_column label' cs.
Proof.
  intros Hne. induction cs as [|[l old] cs IH]; cbn.
  - destruct (String.eqb label label') eqn:E; [|reflexivity].
    apply String.eqb_eq in E. contradiction.
  - destruct (String.eqb l label) eqn:E; cbn.
    + apply String.eqb_eq in E. subst l.
      destruct (String.eqb label label') eqn:E'; [|reflexivity].
      apply String.eqb_eq in E'. contradiction.
    + now rewrite IH.
Qed.

Lemma get_set_eq df label values df' :
  set_column df label values = Ok df' ->
  get_column df' label = Ok values /\ index_size df' = index_size df.
Proof.
  unfold set_column, get_column.
  destruct (_ =? _)%nat; [|discriminate]. intros [= <-]. cbn.
  now rewrite lookup_replace_eq.
Qed.

Lemma get_set_ne df label label' values df' :
  label <> label' ->
  set_column df label values = Ok df' ->
  get_column df' label' = get_column df label'.
Proof.
  unfold set_column, get_column.
  destruct (_ =? _)%nat; [|discriminate]. intros Hne [= <-]. cbn.
  now rewrite lookup_replace_ne.
Qed.

Lemma set_column_ok df label values :
  length values = index_size df ->
  exists df', set_column df label values = Ok df'.
Proof.
  intros H. unfold set_column. apply Nat.eqb_eq in H. rewrite H. eauto.
Qed.

Lemma lookup_column_In label cs :
  In label (map fst cs) ->
  exists values, lookup_column label cs = Some values /\ In (label, values) cs.
Proof.
  induction cs as [|[l vs] cs IH]; cbn; [easy|].
  intros H. destruct (String.eqb l label) eqn:E.
  - apply String.eqb_eq in E. subst l. eauto.
  - destruct H as [H|H]; [subst l; now rewrite String.eqb_refl in E|].
    destruct (IH H) as (values & Hl & Hin). eauto.
Qed.

Lemma first_named_email_In labels col :
  first_named_email labels = Some col -> In col labels.
Proof.
  induction labels as [|l labels IH]; cbn; [discriminate|].
  destruct (String.eqb _ _); [intros [= ->]; auto | auto].
Qed.

Lemma best_at_column_In cs : forall best col score,
  best_at_column cs best = (Some col, score) ->
  fst best = Some col \/ In col (map fst cs).
Proof.
  induction cs as [|[l vs] cs IH]; intros best col score; cbn.
  - intros ->. auto.
  - destruct (count_at vs) as [s|e].
    + destruct (snd best <? s)%Z; intros H; apply IH in H as [H|H]; auto.
      cbn in H. injection H as ->. auto.
    + intros H. apply IH in H as [H|H]; auto.
Qed.

Lemma first_column_In df :
  columns df <> [] -> exists col, first_column df = Ok col /\ In col (columns df).
Proof.
  unfold first_column. destruct (columns df) as [|col rest]; [easy|].
  intros _. exists col. cbn. auto.
Qed.

(** On a table with at least one column the selected email column is one of
    its columns. *)
Lemma find_email_column_In df :
  columns df <> [] ->
  exists col, find_email_column df = Ok col /\ In col (columns df).
Proof.
  intros Hne. unfold find_email_column.
  destruct (first_named_email (columns df)) as [col|] eqn:E1.
  - exists col. split; [reflexivity|]. now apply first_named_email_In in E1.
  - destruct (best_at_column (cols df) (None, (-1)%Z)) as [[col|] score] eqn:E2.
    + destruct (0 <? score)%Z; [|now apply first_column_In].
      exists col. split; [reflexivity|].
      apply best_at_column_In in E2 as [E2|E2]; [discriminate | exact E2].
    + now apply first_column_In.
Qed.

Lemma wf_column_length df label values :
  wf_df df = true -> In (label, values) (cols df) ->
  length values = index_size df.
Proof.
  unfold wf_df. intros H Hin. apply andb_prop in H as [_ H].
  rewrite forallb_forall in H. specialize (H _ Hin). cbn in H.
  now apply Nat.eqb_eq in H.
Qed.

(** The email column of a well-formed table with at least one column: it
    exists and has one cell per row. *)
Lemma email_column_cells df :
  wf_df df = true -> columns df <> [] ->
  exists email_col emails,
    find_email_column df = Ok email_col
    /\ get_column df email_col = Ok emails
    /\ length emails = index_size df.
Proof.
  intros Hwf Hne.
  destruct (find_email_column_In df Hne) as (col & Hfind & Hin).
  destruct (lookup_column_In col (cols df) Hin) as (values & Hl & Hin').
  exists col, values. split; [exact Hfind|]. split.
  - unfold get_column. now rewrite Hl.
  - exact (wf_column_length df col values Hwf Hin').
Qed.

End TableFacts.

(* ===================================================================== *)
(** ** Row pipeline: properties *)
(* ===================================================================== *)

Section RowFacts.

Variable net : list string -> string -> result Response.

(** The loop body never raises: it records [row_result] of what
    [detect_cms_for_email_with_url] did. *)
Lemma process_row_run email w :
  process_row net email w
  = (Ok (row_result (fst (detect_cms_for_email_with_url net email w))),
     snd (detect_cms_for_email_with_url net email w)).
Proof.
  unfold process_row, try_except, bind, ret.
  destruct (detect_cms_for_email_with_url net email w) as [[[cms u]|e] w'];
    reflexivity.
Qed.

Lemma fold_append_rows rows : forall acc,
  fold_left append_row rows acc
  = {| cms_results := cms_results acc ++ map (fun r => r.1.1) rows;
       urls_results := urls_results acc ++ map (fun r => r.1.2) rows;
       error_details := error_details acc ++ map (fun r => r.2) rows |}.
Proof.
  induction rows as [|[[c u] d] rows IH]; intros acc; cbn [fold_left map].
  - destruct acc. cbn. now rewrite !app_nil_r.
  - rewrite IH. cbn. now rewrite <- !app_assoc.
Qed.

Lemma world_before_all emails : forall w i,
  length emails <= i -> world_before net emails w i = world_after net emails w.
Proof.
  unfold world_after.
  induction emails as [|e emails IH]; intros w i Hi.
  - destruct i; reflexivity.
  - destruct i as [|i]; [cbn in Hi; lia|]. cbn in *. apply IH. lia.
Qed.

(** The loop over the email column: every row is processed, in order. *)
Lemma for_emails_run emails : forall acc w,
  for_emails net emails acc w
  = (Ok (fold_left append_row (rows_from net emails w) acc),
     world_after net emails w).
Proof.
  induction emails as [|e emails IH]; intros acc w; [reflexivity|].
  cbn [for_emails]. unfold bind. rewrite process_row_run, IH. reflexivity.
Qed.

Lemma rows_from_length emails : forall w,
  length (rows_from net emails w) = length emails.
Proof.
  induction emails as [|e emails IH]; intros w; cbn; [reflexivity|].
  now rewrite IH.
Qed.

Lemma rows_from_lookup emails : forall w i email,
  emails !! i = Some email ->
  rows_from net emails w !! i
  = Some (row_result
            (fst (detect_cms_for_email_with_url net email
                    (world_before net emails w i)))).
Proof.
  induction emails as [|e emails IH]; intros w i email Hi; [discriminate|].
  destruct i as [|i].
  - cbn in Hi. injection Hi as ->. reflexivity.
  - cbn in Hi |- *. now apply IH.
Qed.

(** What [process_dataframe] does on a well-formed table with at least one
    column. *)
Lemma process_dataframe_records df w :
  wf_df df = true -> columns df <> [] ->
  exists emails,
    length emails = index_size df
    /\ records net df w emails (rows_from net emails w).
Proof.
  intros Hwf Hne.
  destruct (email_column_cells df Hwf Hne) as (col & emails & Hfind & Hget & Hlen).
  exists emails. split; [exact Hlen|].
  set (rows := rows_from net emails w).
  assert (Hrows : length rows = index_size df)
    by (unfold rows; now rewrite rows_from_length).
  destruct (set_column_ok df "cms_detected" (map (fun r => CStr r.1.1) rows))
    as [df1 H1]; [now rewrite length_map|].
  destruct (get_set_eq _ _ _ _ H1) as [G1 S1].
  destruct (set_column_ok df1 "detected_url" (map (fun r => CStr r.1.2) rows))
    as [df2 H2]; [now rewrite length_map, S1|].
  destruct (get_set_eq _ _ _ _ H2) as [G2 S2].
  destruct (set_column_ok df2 "error_detail" (map (fun r => CStr r.2) rows))
    as [df3 H3]; [now rewrite length_map, S2, S1|].
  destruct (get_set_eq _ _ _ _ H3) as [G3 S3].
  exists col, df3, (world_after net emails w).
  split; [exact Hfind|]. split; [exact Hget|]. split.
  - unfold process_dataframe, bind. rewrite Hfind. cbn [lift ret].
    rewrite Hget. cbn [lift ret].
    rewrite for_emails_run, fold_append_rows.
    cbn [cms_results urls_results error_details app].
    rewrite !map_map. fold rows.
    rewrite H1. cbn [lift ret]. rewrite H2. cbn [lift ret]. rewrite H3.
    reflexivity.
  - split; [now rewrite S3, S2, S1|]. split; [|split; [|split]].
    + rewrite (get_set_ne df2 "error_detail" "cms_detected" _ df3
                 ltac:(discriminate) H3).
      rewrite (get_set_ne df1 "detected_url" "cms_detected" _ df2
                 ltac:(discriminate) H2).
      exact G1.
    + rewrite (get_set_ne df2 "error_detail" "detected_url" _ df3
                 ltac:(discriminate) H3).
      exact G2.
    + exact G3.
    + intros label Hlabel. cbn in Hlabel.
      rewrite (get_set_ne df2 "error_detail" label _ df3 ltac:(tauto) H3).
      rewrite (get_set_ne df1 "detected_url" label _ df2 ltac:(tauto) H2).
      rewrite (get_set_ne df "cms_detected" label _ df1 ltac:(tauto) H1).
      reflexivity.
Qed.

End RowFacts.

(* ===================================================================== *)
(** ** Rows on a stateless network *)
(* ===================================================================== *)

Section Stateless.

Variable net : list string -> string -> result Response.
Hypothesis net_stateless : stateless net.

Lemma indep_ret {A} (a : A) : world_indep (ret a).
Proof. intros w1 w2. reflexivity. Qed.

Lemma indep_raise {A} e : world_indep (@raise A e).
Proof. intros w1 w2. reflexivity. Qed.

Lemma indep_lift {A} (r : result A) : world_indep (lift r).
Proof. destruct r; [apply indep_ret | apply indep_raise]. Qed.

Lemma indep_bind {A B} (m : M A) (k : A -> M B) :
  world_indep m -> (forall a, world_indep (k a)) -> world_indep (bind m k).
Proof.
  intros Hm Hk w1 w2. unfold bind. specialize (Hm w1 w2).
  destruct (m w1) as [[a1|e1] w1'], (m w2) as [[a2|e2] w2'];
    cbn in Hm; try discriminate; injection Hm as ->; [apply Hk | reflexivity].
Qed.

Lemma indep_try_except {A} (m : M A) (h : PyExc -> M A) :
  world_indep m -> (forall e, world_indep (h e)) -> world_indep (try_except m h).
Proof.
  intros Hm Hh w1 w2. unfold try_except. specialize (Hm w1 w2).
  destruct (m w1) as [[a1|e1] w1'], (m w2) as [[a2|e2] w2'];
    cbn in Hm; try discriminate; injection Hm as ->; [reflexivity | apply Hh].
Qed.

Lemma indep_http_get url : world_indep (http_get net url).
Proof. intros w1 w2. unfold http_get. cbn. apply net_stateless. Qed.

Lemma indep_for_returning {A R} (l : list A) (body : A -> M (option R)) :
  (forall x, world_indep (body x)) -> world_indep (for_returning l body).
Proof.
  intros Hb. induction l as [|x l IH]; [apply indep_ret|].
  cbn [for_returning]. apply indep_bind; [apply Hb|].
  intros [v|]; [apply indep_ret | exact IH].
Qed.

Lemma indep_try_url url : world_indep (try_url net url).
Proof.
  unfold try_url. apply indep_try_except.
  - apply indep_bind; [apply indep_http_get|].
    intros resp. destruct (_ && _ && _); apply indep_ret.
  - intros e. destruct (exc_is_request e); [apply indep_ret | apply indep_raise].
Qed.

Lemma indep_guess_website_url domain :
  world_indep (guess_website_url net domain).
Proof.
  unfold guess_website_url. destruct (PyStr.is_empty domain); [apply indep_ret|].
  apply indep_bind.
  - apply indep_for_returning. intros scheme.
    apply indep_for_returning. intros prefix. apply indep_try_url.
  - intros [found|]; apply indep_ret.
Qed.

Lemma indep_detect email :
  world_indep (detect_cms_for_email_with_url net email).
Proof.
  unfold detect_cms_for_email_with_url. apply indep_bind; [apply indep_lift|].
  intros email_str. destruct (extract_domain_from_email _); [|apply indep_ret].
  apply indep_bind; [apply indep_guess_website_url|].
  intros [[u|] [resp|]]; apply indep_ret.
Qed.

(** On a stateless network what a row records depends on its cell alone. *)
Lemma indep_process_row email : world_indep (process_row net email).
Proof.
  unfold process_row. apply indep_try_except.
  - apply indep_bind; [apply indep_detect|]. intros [cms u]. apply indep_ret.
  - intros e. apply indep_ret.
Qed.

End Stateless.

(* ===================================================================== *)
(** ** The table a run returns *)
(* ===================================================================== *)

Section RunFacts.

Variable net : list string -> string -> result Response.

Lemma error_detail_nonempty kind msg : kind +:+ ": " +:+ msg <> "".
Proof. destruct kind; discriminate. Qed.

(** A successful loop of attempts returns the URL and the response of an
    attempt that qualified. *)
Lemma for_returning_found_shape urls : forall w found w',
  for_returning urls (try_url net) w = (Ok (Some found), w') ->
  exists resp,
    found = (requests.url resp, Some resp) /\ qualifies resp = true.
Proof.
  induction urls as [|u urls IH]; intros w found w'; [discriminate|].
  cbn [for_returning]. unfold bind. rewrite try_url_run.
  destruct (net (requests_log w) u) as [resp|e].
  - destruct (qualifies resp) eqn:Hq.
    + unfold ret. intros [= <- <-]. eauto.
    + apply IH.
  - destruct (exc_is_request e); [apply IH | discriminate].
Qed.

(** What the prober returns is no result or the final URL and response of
    a qualifying attempt. *)
Lemma guess_website_url_shape domain w u r w' :
  guess_website_url net domain w = (Ok (u, r), w') ->
  (u = None /\ r = None)
  \/ (exists resp, r = Some resp /\ u = requests.url resp
                   /\ qualifies resp = true).
Proof.
  destruct (PyStr.is_empty domain) eqn:E.
  - unfold guess_website_url. rewrite E. unfold ret. intros [= <- <- <-]. auto.
  - rewrite guess_website_url_flat by (destruct domain; [discriminate|easy]).
    destruct (for_returning (candidate_urls domain) (try_url net) w)
      as [[[found|]|e] w1] eqn:Hloop.
    + apply for_returning_found_shape in Hloop as (resp & -> & Hq).
      intros [= <- <- <-]. right. eauto.
    + intros [= <- <- <-]. auto.
    + discriminate.
Qed.

(** A response is never labelled with one of the labels of a row without a
    probe result. *)
Lemma detect_cms_label_of_response resp :
  ~ In (detect_cms_from_response (Some resp)) NO_PROBE_LABELS.
Proof.
  rewrite detect_cms_unfold. cbn zeta. unfold wordpress_label.
  repeat match goal with
         | |- context [if ?b then _ else _] => destruct b
         end; cbn; intuition discriminate.
Qed.

(** What a row that did not raise returns: one of the two labels without a
    URL, or the label and the final URL of a probe result. *)
Lemma detect_cms_for_email_cases email w cms u w' :
  detect_cms_for_email_with_url net email w = (Ok (cms, u), w') ->
  (In cms NO_PROBE_LABELS /\ u = "")
  \/ (exists email_str domain resp,
        email_to_str email = Ok email_str
        /\ extract_domain_from_email (CStr email_str) = Some domain
        /\ guess_website_url net domain w = (Ok (Some u, Some resp), w')
        /\ requests.url resp = Some u
        /\ qualifies resp = true
        /\ cms = detect_cms_from_response (Some resp)).
Proof.
  unfold detect_cms_for_email_with_url, bind.
  destruct (email_to_str email) as [email_str|e] eqn:Hstr; [|discriminate].
  cbn [lift ret].
  destruct (extract_domain_from_email (CStr email_str)) as [domain|] eqn:Hdom.
  - destruct (guess_website_url net domain w) as [[[gu gr]|e] w1] eqn:Hg;
      [|discriminate].
    destruct (guess_website_url_shape _ _ _ _ _ Hg) as [[-> ->]|(resp & -> & -> & Hq)].
    + unfold ret. intros [= <- <- <-]. left. cbn. auto.
    + destruct (requests.url resp) as [final|] eqn:Hurl.
      * unfold ret. intros [= <- <- <-]. right.
        exists email_str, domain, resp. auto 10.
      * unfold ret. intros [= <- <- <-]. left. cbn. auto.
  - unfold ret. intros [= <- <- <-]. left. cbn. auto.
Qed.

(** C4.  On a well-formed table with at least one column,
    [process_dataframe] returns a table with the row count of its input
    whose three result columns hold one row of results per cell of the
    email column, in the order of the cells: row [i] is what the loop body
    records for cell [i] in the world the rows before it left behind.  On
    a stateless network that row is what the loop body records for the
    cell in any world: no other row has a part in it. *)
Theorem process_dataframe_rows (df : DataFrame) (w : World) :
  wf_df df = true ->
  columns df <> [] ->
  exists emails rows,
    records net df w emails rows
    /\ length emails = index_size df
    /\ length rows = index_size df
    /\ (forall i email, emails !! i = Some email ->
          exists row w',
            process_row net email (world_before net emails w i) = (Ok row, w')
            /\ rows !! i = Some row)
    /\ (stateless net ->
        forall i email w0, emails !! i = Some email ->
          exists row w',
            process_row net email w0 = (Ok row, w') /\ rows !! i = Some row).
Proof.
  intros Hwf Hne.
  destruct (process_dataframe_records net df w Hwf Hne) as (emails & Hlen & Hrec).
  exists emails, (rows_from net emails w).
  split; [exact Hrec|]. split; [exact Hlen|].
  split; [now rewrite rows_from_length|]. split.
  - intros i email Hi. rewrite process_row_run.
    eexists _, _. split; [reflexivity|]. now apply rows_from_lookup.
  - intros Hst i email w0 Hi.
    pose proof (indep_process_row net Hst email w0
                  (world_before net emails w i)) as Hind.
    rewrite (process_row_run net email (world_before net emails w i)) in Hind.
    destruct (process_row net email w0) as [out w0'] eqn:Hrow.
    cbn in Hind. subst out.
    eexists _, _. split; [reflexivity|]. now apply rows_from_lookup.
Qed.

(** C5.  On a well-formed table with at least one column every row is
    processed; a row whose processing raises is recorded with the label
    "Error", an empty URL and the non-empty detail "kind: message" of the
    exception; a row that does not raise is recorded with an empty
    detail. *)
Theorem process_dataframe_row_errors (df : DataFrame) (w : World) :
  wf_df df = true ->
  columns df <> [] ->
  exists emails rows,
    records net df w emails rows
    /\ length rows = length emails
    /\ forall i email, emails !! i = Some email ->
         match fst (detect_cms_for_email_with_url net email
                      (world_before net emails w i)) with
         | Raise e =>
             rows !! i = Some ("Error", "", exc_kind e +:+ ": " +:+ exc_msg e)
             /\ exc_kind e +:+ ": " +:+ exc_msg e <> ""
         | Ok (cms, final_url) => rows !! i = Some (cms, final_url, "")
         end.
Proof.
  intros Hwf Hne.
  destruct (process_dataframe_records net df w Hwf Hne) as (emails & Hlen & Hrec).
  exists emails, (rows_from net emails w).
  split; [exact Hrec|]. split; [apply rows_from_length|].
  intros i email Hi. rewrite (rows_from_lookup net emails w i email Hi).
  destruct (fst _) as [[cms u]|e]; cbn [row_result].
  - reflexivity.
  - split; [reflexivity | apply error_detail_nonempty].
Qed.

(** C9.  In every recorded row the URL is empty when the label is
    "No domain / Generic email", "Unknown / No site" or "Error"; with any
    other label the prober returned a result for the row's domain and the
    URL is the final URL of that result.  So a non-empty URL is recorded
    only with a probe result. *)
Theorem detected_url_only_with_probe (df : DataFrame) (w : World) :
  wf_df df = true ->
  columns df <> [] ->
  exists emails rows,
    records net df w emails rows
    /\ length rows = length emails
    /\ forall i cms final_url detail,
         rows !! i = Some (cms, final_url, detail) ->
         (In cms NO_PROBE_LABELS -> final_url = "")
         /\ (~ In cms NO_PROBE_LABELS \/ final_url <> "" ->
             exists email email_str domain resp w',
               emails !! i = Some email
               /\ email_to_str email = Ok email_str
               /\ extract_domain_from_email (CStr email_str) = Some domain
               /\ guess_website_url net domain (world_before net emails w i)
                  = (Ok (Some final_url, Some resp), w')
               /\ requests.url resp = Some final_url
               /\ cms = detect_cms_from_response (Some resp)).
Proof.
  intros Hwf Hne.
  destruct (process_dataframe_records net df w Hwf Hne) as (emails & Hlen & Hrec).
  exists emails, (rows_from net emails w).
  split; [exact Hrec|]. split; [apply rows_from_length|].
  intros i cms final_url detail Hrow.
  assert (Hi : exists email, emails !! i = Some email).
  { apply lookup_lt_is_Some. rewrite <- (rows_from_length net emails w).
    apply lookup_lt_is_Some. eauto. }
  destruct Hi as [email Hi].
  rewrite (rows_from_lookup net emails w i email Hi) in Hrow.
  injection Hrow as Hrow.
  destruct (detect_cms_for_email_with_url net email
              (world_before net emails w i)) as [[[c u]|e] w1] eqn:Hd;
    cbn [fst row_result] in Hrow.
  - injection Hrow as -> -> <-.
    destruct (detect_cms_for_email_cases _ _ _ _ _ Hd)
      as [[Hin ->]|(email_str & domain & resp & Hs & Hx & Hg & Hu & Hq & ->)].
    + split; [reflexivity|]. intros [H|H]; [contradiction | congruence].
    + split.
      * intros Hin. now apply detect_cms_label_of_response in Hin.
      * intros _. exists email, email_str, domain, resp, w1. auto 10.
  - injection Hrow as <- <- <-. split; [reflexivity|].
    intros [H|H]; [|congruence]. exfalso. apply H. cbn. auto.
Qed.

End RunFacts.

(* ===================================================================== *)
(** ** Output file name: properties *)
(* ===================================================================== *)

Section OutputName.
Import PyStr PyStrFacts.

Lemma length_append a b :
  String.length (a +:+ b) = String.length a + String.length b.
Proof. induction a as [|c a IH]; step_append; cbn; [reflexivity | now rewrite IH]. Qed.

Lemma lower_append a b : lower (a +:+ b) = lower a +:+ lower b.
Proof.
  unfold lower. induction a as [|c a IH]; step_append; cbn [map_chars];
    step_append; [reflexivity | now rewrite IH].
Qed.

Lemma length_lower s : String.length (lower s) = String.length s.
Proof. unfold lower. induction s as [|c s IH]; cbn; [reflexivity | now rewrite IH]. Qed.

Lemma take_append a b : take (String.length a) (a +:+ b) = a.
Proof.
  induction a as [|c a IH]; step_append; cbn.
  - destruct b; reflexivity.
  - now rewrite IH.
Qed.

Lemma drop_append a b : drop (String.length a) (a +:+ b) = b.
Proof. induction a as [|c a IH]; step_append; cbn; [destruct b; reflexivity | exact IH]. Qed.

Lemma take_drop n s : take n s +:+ drop n s = s.
Proof.
  revert s. induction n as [|n IH]; intros [|c s]; cbn; step_append;
    try reflexivity.
  now rewrite IH.
Qed.

Lemma drop_lower n s : drop n (lower s) = lower (drop n s).
Proof.
  unfold lower. revert s. induction n as [|n IH]; intros [|c s]; cbn;
    try reflexivity. apply IH.
Qed.

(** A path written [stem +:+ ext] with [ext] a spelling of ".xlsx" in
    either case passes the test of the code, and the slice is [stem]. *)
Lemma endswith_xlsx_of_ext stem ext :
  lower ext = ".xlsx" ->
  endswith ".xlsx" (lower (stem +:+ ext)) = true
  /\ slice_to_neg 5 (stem +:+ ext) = stem.
Proof.
  intros Hext.
  assert (Hlen : String.length ext = 5)
    by (rewrite <- (length_lower ext), Hext; reflexivity).
  split.
  - unfold endswith. rewrite lower_append, Hext, length_append.
    change (String.length ".xlsx") with 5.
    replace (String.length (lower stem) + 5 - 5)
      with (String.length (lower stem)) by lia.
    rewrite drop_append.
    replace (5 <=? String.length (lower stem) + 5)%nat with true
      by (symmetry; apply Nat.leb_le; lia).
    reflexivity.
  - unfold slice_to_neg. rewrite length_append, Hlen.
    replace (String.length stem + 5 - 5) with (String.length stem) by lia.
    apply take_append.
Qed.

(** A path that passes the test of the code ends in a spelling of ".xlsx". *)
Lemma ext_of_endswith_xlsx path :
  endswith ".xlsx" (lower path) = true ->
  exists stem ext, path = stem +:+ ext /\ lower ext = ".xlsx".
Proof.
  unfold endswith. intros H. apply andb_prop in H as [_ H].
  apply String.eqb_eq in H. rewrite length_lower, drop_lower in H.
  exists (take (String.length path - String.length ".xlsx") path),
         (drop (String.length path - String.length ".xlsx") path).
  split; [now rewrite take_drop | exact H].
Qed.

Lemma append_suffix_longer stem ext :
  String.length ext = 5 -> stem +:+ "_with_cms.xlsx" <> stem +:+ ext.
Proof.
  intros Hlen Heq. apply (f_equal String.length) in Heq.
  rewrite !length_append, Hlen in Heq. cbn in Heq. lia.
Qed.

Lemma append_suffix_new path : path +:+ "_with_cms.xlsx" <> path.
Proof.
  intros Heq. apply (f_equal String.length) in Heq.
  rewrite length_append in Heq. cbn in Heq. lia.
Qed.

Variable net : list string -> string -> result Response.
Variable read_excel : string -> result DataFrame.
Variable to_excel_error : string -> option PyExc.

(** [process_excel] once the table is read and processed. *)
Lemma process_excel_run input_path output_path df df_out w w' :
  read_excel input_path = Ok df ->
  process_dataframe net df w = (Ok df_out, w') ->
  process_excel net read_excel to_excel_error input_path output_path w
  = let out :=
      match output_path with
      | Some p => p
      | None =>
          if endswith ".xlsx" (lower input_path)
          then slice_to_neg 5 input_path +:+ "_with_cms.xlsx"
          else input_path +:+ "_with_cms.xlsx"
      end in
    match to_excel_error out with
    | Some e => (Raise e, w')
    | None =>
        (Ok out, {| requests_log := requests_log w';
                    files_written := files_written w' ++ [(out, df_out)] |})
    end.
Proof.
  intros Hread Hproc. unfold process_excel, bind. rewrite Hread. cbn [lift ret].
  rewrite Hproc. cbn zeta. unfold to_excel.
  destruct (to_excel_error _); reflexivity.
Qed.

(** C6, amended.  Called without an output path on a file that reads as a
    well-formed table with at least one column, [process_excel] writes the
    augmented table to one new file and returns its path: for an input
    [stem +:+ ext] with [ext] a spelling of ".xlsx" in either case, the
    path is [stem] followed by "_with_cms.xlsx"; for an input with no such
    extension, it is the input followed by "_with_cms.xlsx". *)
Theorem process_excel_output_path (input_path : string) (df : DataFrame)
  (w : World) :
  read_excel input_path = Ok df ->
  wf_df df = true ->
  columns df <> [] ->
  exists df_out w',
    process_dataframe net df w = (Ok df_out, w')
    /\ (forall stem ext,
          input_path = stem +:+ ext ->
          lower ext = ".xlsx" ->
          to_excel_error (stem +:+ "_with_cms.xlsx") = None ->
          process_excel net read_excel to_excel_error input_path None w
          = (Ok (stem +:+ "_with_cms.xlsx"),
             {| requests_log := requests_log w';
                files_written :=
                  files_written w' ++ [(stem +:+ "_with_cms.xlsx", df_out)] |})
          /\ stem +:+ "_with_cms.xlsx" <> input_path)
    /\ ((forall stem ext, input_path = stem +:+ ext -> lower ext <> ".xlsx") ->
        to_excel_error (input_path +:+ "_with_cms.xlsx") = None ->
        process_excel net read_excel to_excel_error input_path None w
        = (Ok (input_path +:+ "_with_cms.xlsx"),
           {| requests_log := requests_log w';
              files_written :=
                files_written w'
                ++ [(input_path +:+ "_with_cms.xlsx", df_out)] |})
        /\ input_path +:+ "_with_cms.xlsx" <> input_path).
Proof.
  intros Hread Hwf Hne.
  destruct (process_dataframe_records net df w Hwf Hne)
    as (emails & _ & col & df_out & w' & _ & _ & Hproc & _).
  exists df_out, w'. split; [exact Hproc|]. split.
  - intros stem ext -> Hext Hwrite.
    destruct (endswith_xlsx_of_ext stem ext Hext) as [Hend Hslice].
    rewrite (process_excel_run _ _ _ _ _ _ Hread Hproc). cbn zeta.
    rewrite Hend, Hslice, Hwrite. split; [reflexivity|].
    apply append_suffix_longer.
    rewrite <- (length_lower ext), Hext. reflexivity.
  - intros Hnone Hwrite.
    rewrite (process_excel_run _ _ _ _ _ _ Hread Hproc). cbn zeta.
    destruct (endswith ".xlsx" (lower input_path)) eqn:Hend.
    + apply ext_of_endswith_xlsx in Hend as (stem & ext & Hp & Hext).
      now destruct (Hnone stem ext Hp).
    + rewrite Hwrite. split; [reflexivity | apply append_suffix_new].
Qed.

End OutputName.

(** C6, amended, on "Clients.XLSX": the table is written to
    "Clients_with_cms.xlsx". *)
Lemma process_excel_output_path_witness :
  example_read_excel "Clients.XLSX" = Ok example_table
  /\ wf_df example_table = true
  /\ columns example_table <> []
  /\ exists df_out w',
       process_excel example_network example_read_excel
         example_to_excel_error "Clients.XLSX" None (mkWorld [] [])
       = (Ok "Clients_with_cms.xlsx",
          {| requests_log := requests_log w';
             files_written :=
               files_written w' ++ [("Clients_with_cms.xlsx", df_out)] |}).
Proof.
  split; [reflexivity|]. split; [reflexivity|]. split; [discriminate|].
  destruct (process_excel_output_path example_network example_read_excel
              example_to_excel_error "Clients.XLSX" example_table
              (mkWorld [] []) eq_refl eq_refl ltac:(discriminate))
    as (df_out & w' & _ & Hext & _).
  exists df_out, w'.
  exact (proj1 (Hext "Clients" ".XLSX" eq_refl eq_refl eq_refl)).
Defined.

(** C6 as stated fails.  With no recognized extension the code appends
    "_with_cms.xlsx", not "_with_cms"; and the extension of the output is
    always the lowercase ".xlsx", not the extension of the input. *)
Lemma process_excel_name_not_as_worded :
  (fst (process_excel example_network example_read_excel
          example_to_excel_error "clients.xls" None (mkWorld [] []))
   = Ok "clients.xls_with_cms.xlsx"
   /\ spec_output_name "clients.xls" = "clients.xls_with_cms"
   /\ fst (process_excel example_network example_read_excel
             example_to_excel_error "clients.xls" None (mkWorld [] []))
      <> Ok (spec_output_name "clients.xls"))
  /\ (fst (process_excel example_network example_read_excel
             example_to_excel_error "Clients.XLSX" None (mkWorld [] []))
      = Ok "Clients_with_cms.xlsx"
      /\ spec_output_name "Clients.XLSX" = "Clients_with_cms.XLSX"
      /\ fst (process_excel example_network example_read_excel
                example_to_excel_error "Clients.XLSX" None (mkWorld [] []))
         <> Ok (spec_output_name "Clients.XLSX")).
Proof.
  split; (split; [vm_compute; reflexivity|]);
    (split; [vm_compute; reflexivity|]); vm_compute; discriminate.
Qed.

(* ===================================================================== *)
(** ** The pipeline on the example table *)
(* ===================================================================== *)

(** The run of the example: a generic address, a reachable shop, a cell
    whose conversion raises, a missing value. *)
Example process_dataframe_example :
  process_dataframe example_network example_table (mkWorld [] [])
  = (Ok {| index_size := 4;
           cols := cols example_table ++
             [ ("cms_detected",
                [CStr "No domain / Generic email"; CStr "PrestaShop";
                 CStr "Error"; CStr "No domain / Generic email"]);
               ("detected_url",
                [CStr ""; CStr "https://www.example.org/"; CStr ""; CStr ""]);
               ("error_detail",
                [CStr ""; CStr ""; CStr "TypeError: no str"; CStr ""]) ] |},
     mkWorld ["https://example.org"; "https://www.example.org"] []).
Proof. vm_compute. reflexivity. Qed.

(** A table without columns has no email column: the run raises. *)
Example process_dataframe_no_column :
  fst (process_dataframe example_network (mkDataFrame 3 []) (mkWorld [] []))
  = Raise (mkExc "IndexError"
             "index 0 is out of bounds for axis 0 with size 0" false).
Proof. vm_compute. reflexivity. Qed.

(** The cells of the email column of the example table. *)
Lemma example_records emails rows :
  records example_network example_table (mkWorld [] []) emails rows ->
  emails = [CStr "a@gmail.com"; CStr "b@example.org";
            CObject (Raise (mkExc "TypeError" "no str" false)); CMissing].
Proof.
  intros (col & df_out & w' & Hfind & Hget & _).
  vm_compute in Hfind. injection Hfind as <-.
  vm_compute in Hget. now injection Hget as <-.
Defined.

(** C4 on the example table. *)
Lemma process_dataframe_rows_witness :
  wf_df example_table = true
  /\ columns example_table <> []
  /\ exists emails rows,
       records example_network example_table (mkWorld [] []) emails rows
       /\ length emails = 4
       /\ length rows = 4.
Proof.
  split; [reflexivity|]. split; [discriminate|].
  destruct (process_dataframe_rows example_network example_table
              (mkWorld [] []) eq_refl ltac:(discriminate))
    as (emails & rows & Hrec & Hlen & Hrows & _).
  exists emails, rows. auto.
Defined.

(** C5 on the example table: the third cell raises [TypeError] and is
    recorded as an error; the first does not raise. *)
Lemma process_dataframe_row_errors_witness :
  wf_df example_table = true
  /\ columns example_table <> []
  /\ exists emails rows,
       records example_network example_table (mkWorld [] []) emails rows
       /\ rows !! 0 = Some ("No domain / Generic email", "", "")
       /\ rows !! 2 = Some ("Error", "", "TypeError: no str").
Proof.
  split; [reflexivity|]. split; [discriminate|].
  destruct (process_dataframe_row_errors example_network example_table
              (mkWorld [] []) eq_refl ltac:(discriminate))
    as (emails & rows & Hrec & Hlen & Hrows).
  exists emails, rows. split; [exact Hrec|].
  pose proof (example_records emails rows Hrec) as ->.
  split.
  - exact (Hrows 0 _ eq_refl).
  - exact (proj1 (Hrows 2 _ eq_refl)).
Defined.

(** C9 on the example table: the rows have the lengths of the column. *)
Lemma detected_url_only_with_probe_witness :
  wf_df example_table = true
  /\ columns example_table <> []
  /\ exists emails rows,
       records example_network example_table (mkWorld [] []) emails rows
       /\ length rows = length emails
       /\ forall i final_url detail,
            rows !! i = Some ("Error", final_url, detail) -> final_url = "".
Proof.
  split; [reflexivity|]. split; [discriminate|].
  destruct (detected_url_only_with_probe example_network example_table
              (mkWorld [] []) eq_refl ltac:(discriminate))
    as (emails & rows & Hrec & Hlen & Hrows).
  exists emails, rows. split; [exact Hrec|]. split; [exact Hlen|].
  intros i final_url detail Hi.
  apply (proj1 (Hrows i "Error" final_url detail Hi)).
  cbn. auto.
Defined.

(* ===================================================================== *)
(** ** Locating the email column *)
(* ===================================================================== *)

Section EmailColumn.

Lemma first_named_email_skip pre labels :
  (forall l, In l pre -> PyStr.lower (PyStr.strip l) <> "email") ->
  first_named_email (pre ++ labels) = first_named_email labels.
Proof.
  induction pre as [|l pre IH]; intros H; [reflexivity|].
  cbn. destruct (String.eqb _ _) eqn:E.
  - apply String.eqb_eq in E. exfalso. apply (H l); [now left | exact E].
  - apply IH. intros l' Hl'. apply H. now right.
Qed.

(** X1.  A column whose label reads "email" once trimmed and lowercased is
    the email column, whatever the cells hold; of several such columns the
    first one is taken. *)
Theorem find_email_column_named (df : DataFrame) (pre post : list string)
  (col : string) :
  columns df = pre ++ col :: post ->
  PyStr.lower (PyStr.strip col) = "email" ->
  (forall l, In l pre -> PyStr.lower (PyStr.strip l) <> "email") ->
  find_email_column df = Ok col.
Proof.
  intros Hcols Hcol Hpre. unfold find_email_column.
  rewrite Hcols, (first_named_email_skip _ _ Hpre). cbn.
  now rewrite Hcol.
Qed.

Lemma find_email_column_named_witness :
  find_email_column example_table = Ok "Email ".
Proof.
  apply (find_email_column_named example_table ["name"] [] "Email ").
  - reflexivity.
  - reflexivity.
  - intros l [<-|[]]. vm_compute. discriminate.
Defined.

Lemma find_email_column_empty df :
  columns df = [] ->
  find_email_column df
  = Raise (mkExc "IndexError"
             "index 0 is out of bounds for axis 0 with size 0" false).
Proof.
  intros Hcols. unfold find_email_column, first_column. rewrite Hcols. cbn.
  unfold columns in Hcols. destruct (cols df); [reflexivity | discriminate].
Qed.

(** X2.  [find_email_column] raises [IndexError] on a table without
    columns and on no other table; on every other table it returns one of
    the labels of the table. *)
Theorem find_email_column_total (df : DataFrame) :
  (columns df = []
   /\ find_email_column df
      = Raise (mkExc "IndexError"
                 "index 0 is out of bounds for axis 0 with size 0" false))
  \/ (columns df <> []
      /\ exists col, find_email_column df = Ok col /\ In col (columns df)).
Proof.
  destruct (columns df) as [|c rest] eqn:Hcols.
  - left. split; [reflexivity|]. now apply find_email_column_empty.
  - right. split; [discriminate|].
    rewrite <- Hcols. apply find_email_column_In. now rewrite Hcols.
Qed.

Lemma count_at_nonneg values n : count_at values = Ok n -> (0 <= n)%Z.
Proof.
  revert n. induction values as [|c values IH]; intros n; cbn.
  - intros [= <-]. lia.
  - destruct (cell_to_str c) as [s|e]; [|discriminate].
    destruct (count_at values) as [m|e]; [|discriminate].
    specialize (IH m eq_refl). destruct (PyStr.contains "@" s); intros [= <-]; lia.
Qed.

(** The second loop keeps the first column of highest count. *)
Lemma best_at_column_inv cs : forall b bs r rs,
  best_at_column cs (b, bs) = (r, rs) ->
  (bs <= rs)%Z
  /\ (forall l vs m, In (l, vs) cs -> count_at vs = Ok m -> (m <= rs)%Z)
  /\ ((r = b /\ rs = bs)
      \/ (exists pre col cells post,
            cs = pre ++ (col, cells) :: post
            /\ r = Some col /\ count_at cells = Ok rs /\ (bs < rs)%Z
            /\ forall l vs m, In (l, vs) pre -> count_at vs = Ok m -> (m < rs)%Z)).
Proof.
  induction cs as [|[col values] cs IH]; intros b bs r rs; cbn [best_at_column].
  - intros [= <- <-]. split; [lia|]. split; [intros l vs m []|]. now left.
  - destruct (count_at values) as [score|e] eqn:Hc.
    + cbn [snd]. destruct (bs <? score)%Z eqn:Hlt.
      * apply Z.ltb_lt in Hlt. intros H.
        destruct (IH _ _ _ _ H) as (Hle & Hall & Hwho).
        split; [lia|]. split.
        { intros l vs m [[= <- <-]|Hin] Hm; [|eauto].
          rewrite Hc in Hm. injection Hm as <-. exact Hle. }
        right. destruct Hwho as [[-> ->]|(pre & c & cells & post & -> & -> & Hcells & Hlt' & Hpre)].
        { exists [], col, values, cs. repeat split; auto. intros l vs m []. }
        exists ((col, values) :: pre), c, cells, post.
        repeat split; auto; [lia|].
        intros l vs m [[= <- <-]|Hin] Hm; [|eauto].
        rewrite Hc in Hm. injection Hm as <-. exact Hlt'.
      * apply Z.ltb_ge in Hlt. intros H.
        destruct (IH _ _ _ _ H) as (Hle & Hall & Hwho).
        split; [lia|]. split.
        { intros l vs m [[= <- <-]|Hin] Hm; [|eauto].
          rewrite Hc in Hm. injection Hm as <-. lia. }
        destruct Hwho as [[-> ->]|(pre & c & cells & post & -> & -> & Hcells & Hlt' & Hpre)];
          [now left|].
        right. exists ((col, values) :: pre), c, cells, post.
        repeat split; auto.
        intros l vs m [[= <- <-]|Hin] Hm; [|eauto].
        rewrite Hc in Hm. injection Hm as <-. lia.
    + intros H. destruct (IH _ _ _ _ H) as (Hle & Hall & Hwho).
      split; [lia|]. split.
      { intros l vs m [[= <- <-]|Hin] Hm; [congruence | eauto]. }
      destruct Hwho as [[-> ->]|(pre & c & cells & post & -> & -> & Hcells & Hlt' & Hpre)];
        [now left|].
      right. exists ((col, values) :: pre), c, cells, post.
      repeat split; auto.
      intros l vs m [[= <- <-]|Hin] Hm; [congruence | eauto].
Qed.



(** X4.  When no label reads "email" and no column has a cell with "@",
    the email column is the first column of the table. *)
Theorem find_email_column_fallback (df : DataFrame) (col : string)
  (rest : list string) :
  first_named_email (columns df) = None ->
  (forall l vs m, In (l, vs) (cols df) -> count_at vs = Ok m -> m = 0%Z) ->
  columns df = col :: rest ->
  find_email_column df = Ok col.
Proof.
  intros Hnamed Hzero Hcols. unfold find_email_column. rewrite Hnamed.
  destruct (best_at_column (cols df) (None, (-1)%Z)) as [r rs] eqn:Hbest.
  destruct (best_at_column_inv _ _ _ _ _ Hbest) as (_ & _ & Hwho).
  assert (Hrs : (0 <? rs)%Z = false).
  { apply Z.ltb_ge.
    destruct Hwho as [[_ ->]|(pre & c & cells & post & Hcs & _ & Hcells & _)]; [lia|].
    rewrite (Hzero c cells rs); [lia | | exact Hcells].
    rewrite Hcs. apply in_or_app. right. now left. }
  rewrite Hrs. unfold first_column. rewrite Hcols.
  destruct r; reflexivity.
Qed.

Lemma find_email_column_fallback_witness :
  find_email_column
    (mkDataFrame 2 [("a", [CStr "x"; CMissing]); ("b", [CStr "y"; CStr "z"])])
  = Ok "a".
Proof.
  apply (find_email_column_fallback _ "a" ["b"]).
  - reflexivity.
  - intros l vs m [[= <- <-]|[[= <- <-]|[]]]; vm_compute; congruence.
  - reflexivity.
Defined.

End EmailColumn.

(* ===================================================================== *)
(** ** Domain extractor: what it returns and what it ignores *)
(* ===================================================================== *)

Section ExtractorMore.
Import PyStr PyStrFacts.

Ltac each_char c := destruct c as [[] [] [] [] [] [] [] []].

Lemma lower_char_idem c : lower_char (lower_char c) = lower_char c.
Proof. each_char c; reflexivity. Qed.

Lemma is_space_lower_char c : is_space (lower_char c) = is_space c.
Proof. each_char c; reflexivity. Qed.

Lemma lower_char_at c : Ascii.eqb "@" (lower_char c) = Ascii.eqb "@" c.
Proof. each_char c; reflexivity. Qed.

Lemma lower_idem s : lower (lower s) = lower s.
Proof.
  unfold lower. induction s as [|c s IH]; cbn; [reflexivity|].
  now rewrite lower_char_idem, IH.
Qed.

Lemma lower_no_at s : contains "@" (lower s) = contains "@" s.
Proof.
  unfold lower. induction s as [|c s IH]; [reflexivity|].
  cbn [map_chars]. now rewrite !contains_char_cons, lower_char_at, IH.
Qed.

Lemma lstrip_lower s : lstrip (lower s) = lower (lstrip s).
Proof.
  unfold lower. induction s as [|c s IH]; [reflexivity|].
  cbn [map_chars lstrip]. rewrite is_space_lower_char.
  destruct (is_space c); [exact IH | reflexivity].
Qed.

Lemma rstrip_lower s : rstrip (lower s) = lower (rstrip s).
Proof.
  unfold lower. induction s as [|c s IH]; [reflexivity|].
  cbn [map_chars rstrip]. rewrite IH, is_space_lower_char.
  destruct (rstrip s); cbn [map_chars]; [destruct (is_space c)|]; reflexivity.
Qed.

Lemma strip_lower s : strip (lower s) = lower (strip s).
Proof. unfold strip. now rewrite lstrip_lower, rstrip_lower. Qed.

Lemma lstrip_idem s : lstrip (lstrip s) = lstrip s.
Proof.
  induction s as [|c s IH]; [reflexivity|].
  cbn [lstrip]. destruct (is_space c) eqn:E; [exact IH|].
  cbn [lstrip]. now rewrite E.
Qed.

Lemma strip_idem s : strip (strip s) = strip s.
Proof.
  unfold strip. now rewrite lstrip_rstrip, lstrip_idem, rstrip_idem.
Qed.

Lemma remove_fixed c s : lower s = s -> lower (remove c s) = remove c s.
Proof.
  unfold lower. induction s as [|a s IH]; [reflexivity|].
  cbn [map_chars]. intros [= Ha Hs]. cbn [remove].
  destruct (Ascii.eqb a c); [auto|]. cbn [map_chars]. now rewrite Ha, IH.
Qed.

Lemma remove_gone c s : contains (String c EmptyString) (remove c s) = false.
Proof.
  induction s as [|a s IH]; [reflexivity|].
  cbn [remove]. destruct (Ascii.eqb a c) eqn:E; [exact IH|].
  now rewrite contains_char_cons, Ascii.eqb_sym, E, IH.
Qed.

Lemma remove_keeps_absent c c' s :
  contains (String c EmptyString) s = false ->
  contains (String c EmptyString) (remove c' s) = false.
Proof.
  induction s as [|a s IH]; [reflexivity|].
  rewrite contains_char_cons. intros H. apply orb_false_elim in H as [Ha Hs].
  cbn [remove]. destruct (Ascii.eqb a c'); [auto|].
  now rewrite contains_char_cons, Ha, IH.
Qed.

Lemma clean_keeps_absent c s :
  contains (String c EmptyString) s = false ->
  contains (String c EmptyString) (clean_domain s) = false.
Proof. intros H. unfold clean_domain. now repeat apply remove_keeps_absent. Qed.

Lemma split_parts_no_sep sep s p :
  In p (split sep s) -> contains (String sep EmptyString) p = false.
Proof.
  revert p. induction s as [|c s IH]; intros p.
  - intros [<-|[]]. reflexivity.
  - cbn [split]. destruct (Ascii.eqb c sep) eqn:E.
    + intros [<-|H]; [reflexivity | auto].
    + destruct (split sep s) as [|q qs].
      * intros [<-|[]]. rewrite contains_char_cons, Ascii.eqb_sym, E. reflexivity.
      * intros [<-|H].
        -- rewrite contains_char_cons, Ascii.eqb_sym, E. cbn [orb].
           apply IH. now left.
        -- apply IH. now right.
Qed.

Lemma split_length sep s : length (split sep s) = S (count_char sep s).
Proof.
  induction s as [|c s IH]; [reflexivity|].
  cbn [split count_char]. destruct (Ascii.eqb c sep).
  - cbn. now rewrite IH.
  - destruct (split sep s); cbn in *; lia.
Qed.

Lemma count_char_lstrip c s :
  is_space c = false -> count_char c (lstrip s) = count_char c s.
Proof.
  intros Hc. induction s as [|a s IH]; [reflexivity|].
  cbn [lstrip]. destruct (is_space a) eqn:Ha; [|reflexivity].
  cbn [count_char]. destruct (Ascii.eqb a c) eqn:E; [|exact IH].
  apply Ascii.eqb_eq in E. congruence.
Qed.

Lemma count_char_rstrip c s :
  is_space c = false -> count_char c (rstrip s) = count_char c s.
Proof.
  intros Hc. induction s as [|a s IH]; [reflexivity|].
  cbn [rstrip count_char]. destruct (rstrip s) as [|b r] eqn:Hr.
  - cbn [count_char] in IH. rewrite <- IH.
    destruct (is_space a) eqn:Ha; cbn [count_char]; [|lia].
    destruct (Ascii.eqb a c) eqn:E; [|reflexivity].
    apply Ascii.eqb_eq in E. congruence.
  - cbn [count_char] in *. now rewrite IH.
Qed.

(** What a returned domain is made of. *)
Lemma extract_some s d :
  extract_domain_from_email (CStr s) = Some d ->
  exists before part,
    split "@" (strip s) = [before; part]
    /\ d = clean_domain (lower (strip part))
    /\ contains "." d = true.
Proof.
  unfold extract_domain_from_email.
  destruct (negb _); [discriminate|].
  destruct (split "@" (strip s)) as [|before [|part [|]]]; try discriminate.
  destruct (_ || _); [discriminate|].
  destruct (contains "." _) eqn:Hdot; [|discriminate].
  intros [= <-]. eauto.
Qed.

(** X5.  A domain the extractor returns is never empty, contains a dot,
    is in lowercase, and contains none of "@", '>', '<', ';' and ','. *)
Theorem extract_domain_result_shape (email : cell) (domain : string) :
  extract_domain_from_email email = Some domain ->
  domain <> ""
  /\ contains "." domain = true
  /\ lower domain = domain
  /\ contains "@" domain = false
  /\ contains ">" domain = false
  /\ contains "<" domain = false
  /\ contains ";" domain = false
  /\ contains "," domain = false.
Proof.
  destruct email as [s| |o]; try discriminate. intros H.
  destruct (extract_some s domain H) as (before & part & Hsplit & -> & Hdot).
  assert (Hat : contains "@" (lower (strip part)) = false).
  { rewrite lower_no_at. unfold strip.
    apply rstrip_no_char, lstrip_no_char.
    apply (split_parts_no_sep "@" (strip s)). rewrite Hsplit. cbn. auto. }
  split; [intros E; rewrite E in Hdot; discriminate|].
  split; [exact Hdot|]. split.
  - unfold clean_domain. repeat apply remove_fixed. apply lower_idem.
  - split; [now apply clean_keeps_absent|]. unfold clean_domain.
    split; [do 3 apply remove_keeps_absent; apply remove_gone|].
    split; [do 2 apply remove_keeps_absent; apply remove_gone|].
    split; [apply remove_keeps_absent, remove_gone | apply remove_gone].
Qed.

Lemma extract_domain_result_shape_witness :
  lower "monsite.com" = "monsite.com" /\ contains ";" "monsite.com" = false.
Proof.
  pose proof (extract_domain_result_shape (CStr "contact@MonSite.COM;")
                "monsite.com" eq_refl) as H.
  split; [exact (proj1 (proj2 (proj2 H))) | exact (proj1 (proj2 (proj2 (proj2 (proj2 (proj2 (proj2 H)))))))].
Defined.

(** X6.  The extractor returns a domain only for a string with exactly one
    "@": a string with none, or with two or more, has no domain. *)
Theorem extract_domain_one_at (s domain : string) :
  extract_domain_from_email (CStr s) = Some domain ->
  count_char "@" s = 1.
Proof.
  intros H. destruct (extract_some s domain H) as (before & part & Hsplit & _).
  apply (f_equal (@length string)) in Hsplit.
  rewrite split_length in Hsplit. cbn in Hsplit.
  unfold strip in Hsplit.
  rewrite count_char_rstrip, count_char_lstrip in Hsplit by reflexivity. lia.
Qed.

Lemma extract_domain_one_at_witness :
  count_char "@" "contact@MonSite.COM;" = 1.
Proof.
  exact (extract_domain_one_at "contact@MonSite.COM;" "monsite.com" eq_refl).
Defined.

(** X7.  White space around the address is ignored: the extractor gives
    the same answer on a string and on the string trimmed, which is why the
    row pipeline may trim before it calls the extractor. *)
Theorem extract_domain_ignores_outer_space (s : string) :
  extract_domain_from_email (CStr (strip s)) = extract_domain_from_email (CStr s).
Proof. unfold extract_domain_from_email. now rewrite strip_idem. Qed.

(** X8.  Of an address with one "@" only the part after the "@" counts, and
    its letter case does not: two addresses whose parts after the "@"
    agree up to case have the same domain, whatever stands before the
    "@". *)
Theorem extract_domain_ignores_local_part_and_case
  (before before' after after' : string) :
  contains "@" before = false ->
  contains "@" before' = false ->
  contains "@" after = false ->
  lower after' = lower after ->
  extract_domain_from_email (CStr (before' +:+ String "@" after'))
  = extract_domain_from_email (CStr (before +:+ String "@" after)).
Proof.
  intros Hb Hb' Ha Hcase.
  assert (Ha' : contains "@" after' = false)
    by (rewrite <- lower_no_at, Hcase, lower_no_at; exact Ha).
  rewrite (extract_one_at _ _ Hb Ha), (extract_one_at _ _ Hb' Ha').
  now rewrite <- !strip_lower, Hcase.
Qed.

Lemma extract_domain_ignores_local_part_and_case_witness :
  extract_domain_from_email (CStr "Sales@SHOP.Example.org")
  = extract_domain_from_email (CStr "info@shop.example.ORG").
Proof.
  apply (extract_domain_ignores_local_part_and_case
           "info" "Sales" "shop.example.ORG" "SHOP.Example.org");
    reflexivity.
Defined.

End ExtractorMore.

(* ===================================================================== *)
(** ** URL prober: bounds and failures *)
(* ===================================================================== *)

Section ProberMore.

Variable net : list string -> string -> result Response.

Lemma for_returning_requests urls : forall w,
  exists k, k <= length urls
    /\ snd (for_returning urls (try_url net) w) = log_requests w (take k urls).
Proof.
  induction urls as [|u urls IH]; intros w.
  - exists 0. split; [lia|]. cbn. now rewrite log_requests_nil.
  - cbn [for_returning]. unfold bind. rewrite try_url_run.
    destruct (match net (requests_log w) u with
              | Ok resp => if qualifies resp
                           then Ok (Some (requests.url resp, Some resp))
                           else Ok None
              | Raise e => if exc_is_request e then Ok None else Raise e
              end) as [[found|]|e].
    + exists 1. split; [cbn; lia|]. cbn. now destruct urls.
    + destruct (IH (log_requests w [u])) as (k & Hk & Hsnd).
      exists (S k). split; [cbn; lia|].
      rewrite Hsnd, log_requests_app. reflexivity.
    + exists 1. split; [cbn; lia|]. cbn. now destruct urls.
Qed.

(** The requests of one call of the prober. *)
Lemma guess_website_url_log (domain : string) (w : World) :
  exists k,
    k <= 4
    /\ snd (guess_website_url net domain w)
       = log_requests w (take k (candidate_urls domain))
    /\ (domain = "" -> k = 0).
Proof.
  destruct (PyStr.is_empty domain) eqn:Hd.
  - exists 0. split; [lia|]. split; [|reflexivity].
    unfold guess_website_url. rewrite Hd. cbn. now rewrite log_requests_nil.
  - assert (Hne : domain <> "") by (intros ->; discriminate).
    rewrite (guess_website_url_flat _ _ _ Hne).
    destruct (for_returning_requests (candidate_urls domain) w)
      as (k & Hk & Hsnd).
    exists k. split; [exact Hk|]. split; [|intros E; contradiction].
    destruct (for_returning _ _ w) as [[[found|]|e] w']; exact Hsnd.
Qed.

(** X9.  One call of the prober makes at most four requests, and the
    requests it makes are the first candidate URLs in their order, whether
    it returns a result, returns none or raises; on the empty domain it
    makes no request.  It writes no file. *)
Theorem guess_website_url_requests (domain : string) (w : World) :
  exists k,
    k <= 4
    /\ snd (guess_website_url net domain w)
       = log_requests w (take k (candidate_urls domain))
    /\ (domain = "" -> k = 0).
Proof. exact (guess_website_url_log domain w). Qed.

(** A loop stops at the first attempt that raises another exception than
    a [RequestException]. *)
Lemma for_returning_raises urls : forall k w url e,
  urls !! k = Some url ->
  (forall i u, i < k -> urls !! i = Some u ->
     passed_over (net (requests_log w ++ take i urls) u)) ->
  net (requests_log w ++ take k urls) url = Raise e ->
  exc_is_request e = false ->
  for_returning urls (try_url net) w
  = (Raise e, log_requests w (take (S k) urls)).
Proof.
  induction urls as [|u0 urls IH]; intros k w url e Hk Hbefore Hget He.
  - discriminate.
  - destruct k as [|k].
    + cbn in Hk. injection Hk as ->. cbn in Hget. rewrite app_nil_r in Hget.
      cbn [for_returning]. unfold bind.
      rewrite try_url_run, Hget, He. cbn. reflexivity.
    + cbn [for_returning]. unfold bind.
      rewrite try_url_passed_over.
      2:{ specialize (Hbefore 0 u0 ltac:(lia) eq_refl). cbn in Hbefore.
          now rewrite app_nil_r in Hbefore. }
      rewrite (IH k _ url e).
      * now rewrite log_requests_app.
      * exact Hk.
      * intros i u Hi Hu. specialize (Hbefore (S i) u ltac:(lia) Hu).
        cbn in Hbefore |- *. now rewrite <- app_assoc.
      * cbn in Hget |- *. now rewrite <- app_assoc.
      * exact He.
Qed.

(** X10.  Only a [RequestException] is swallowed: when the attempts before
    one were passed over and that one raises another exception, the prober
    raises that exception and tries no further URL. *)
Theorem guess_website_url_raises (domain : string) (w : World) (k : nat)
  (url : string) (e : PyExc) :
  domain <> "" ->
  candidate_urls domain !! k = Some url ->
  (forall i u, i < k -> candidate_urls domain !! i = Some u ->
     passed_over (net (requests_log w ++ take i (candidate_urls domain)) u)) ->
  net (requests_log w ++ take k (candidate_urls domain)) url = Raise e ->
  exc_is_request e = false ->
  guess_website_url net domain w
  = (Raise e, log_requests w (take (S k) (candidate_urls domain))).
Proof.
  intros Hne Hk Hbefore Hget He.
  rewrite (guess_website_url_flat _ _ _ Hne).
  now rewrite (for_returning_raises _ k w url e Hk Hbefore Hget He).
Qed.

(** X11.  What the prober returns is no result at all or a response
    together with its own final URL; a returned response has a status in
    [200, 400) and a body. *)
Theorem guess_website_url_result (domain : string) (w w' : World)
  (u : option string) (r : option Response) :
  guess_website_url net domain w = (Ok (u, r), w') ->
  (u = None /\ r = None)
  \/ (exists resp,
        r = Some resp
        /\ u = requests.url resp
        /\ (200 <= requests.status_code resp < 400)%Z
        /\ requests.text resp <> None).
Proof.
  intros H. apply guess_website_url_shape in H as [H|(resp & -> & -> & Hq)];
    [now left|].
  right. exists resp. unfold qualifies in Hq.
  apply andb_prop in Hq as [Hq Ht]. apply andb_prop in Hq as [Hlo Hhi].
  apply Z.leb_le in Hlo. apply Z.ltb_lt in Hhi.
  repeat split; auto. destruct (requests.text resp); discriminate.
Qed.

End ProberMore.

Lemma guess_website_url_raises_witness :
  guess_website_url broken_network "example.org" (mkWorld [] [])
  = (Raise (mkExc "UnicodeError" "label too long" false),
     mkWorld ["https://example.org"; "https://www.example.org"] []).
Proof.
  apply (guess_website_url_raises broken_network "example.org" (mkWorld [] [])
           1 "https://www.example.org").
  - discriminate.
  - reflexivity.
  - intros i u Hi Hu. destruct i as [|i]; [|lia].
    cbn in Hu. injection Hu as <-. reflexivity.
  - reflexivity.
  - reflexivity.
Defined.

Lemma guess_website_url_result_witness :
  (200 <= requests.status_code example_home < 400)%Z.
Proof.
  destruct (guess_website_url_result example_network "example.org"
              (mkWorld [] [])
              (mkWorld ["https://example.org"; "https://www.example.org"] [])
              (Some "https://www.example.org/") (Some example_home) eq_refl)
    as [[H _]|(resp & Hr & _ & Hs & _)]; [discriminate|].
  injection Hr as <-. exact Hs.
Defined.

(* ===================================================================== *)
(** ** CMS classifier: reading the label back *)
(* ===================================================================== *)

Section ClassifierMore.
Import PyStr PyStrFacts.

(** X12.  The classifier answers "Unknown / No site" exactly when it is
    given no response: a response is never labelled that way, so the
    label tells a caller that nothing answered. *)
Theorem detect_cms_no_site_iff (probe : option Response) :
  detect_cms_from_response probe = "Unknown / No site" <-> probe = None.
Proof.
  split; [|intros ->; reflexivity].
  destruct probe as [resp|]; [|reflexivity]. intros H. exfalso.
  apply (detect_cms_label_of_response resp). rewrite H. cbn. auto.
Qed.

(** X13.  The label tells which test decided: each label of a response is
    returned exactly when its marker set matches and no marker set of
    higher priority does; "Unknown / Custom" exactly when none matches. *)
Theorem detect_cms_label_iff (resp : Response) :
  let p := page_of resp in
  let label := detect_cms_from_response (Some resp) in
  (label = "Shopify" <-> shopify_marker p = true)
  /\ (label = "Wix" <-> shopify_marker p = false /\ wix_marker p = true)
  /\ (label = "Odoo" <->
        shopify_marker p = false /\ wix_marker p = false
        /\ odoo_marker p = true)
  /\ (label = "WordPress + WooCommerce" <->
        shopify_marker p = false /\ wix_marker p = false
        /\ odoo_marker p = false /\ wordpress_marker p = true
        /\ contains "woocommerce" (page_html p) = true)
  /\ (label = "WordPress" <->
        shopify_marker p = false /\ wix_marker p = false
        /\ odoo_marker p = false /\ wordpress_marker p = true
        /\ contains "woocommerce" (page_html p) = false)
  /\ (label = "PrestaShop" <->
        shopify_marker p = false /\ wix_marker p = false
        /\ odoo_marker p = false /\ wordpress_marker p = false
        /\ prestashop_marker p = true)
  /\ (label = "Squarespace" <->
        shopify_marker p = false /\ wix_marker p = false
        /\ odoo_marker p = false /\ wordpress_marker p = false
        /\ prestashop_marker p = false /\ squarespace_marker p = true)
  /\ (label = "Unknown / Custom" <->
        shopify_marker p = false /\ wix_marker p = false
        /\ odoo_marker p = false /\ wordpress_marker p = false
        /\ prestashop_marker p = false /\ squarespace_marker p = false).
Proof.
  cbn zeta. rewrite detect_cms_unfold. cbn zeta. unfold wordpress_label.
  destruct (shopify_marker (page_of resp));
    [repeat split; intros; try discriminate; intuition discriminate|].
  destruct (wix_marker (page_of resp));
    [repeat split; intros; try discriminate; intuition discriminate|].
  destruct (odoo_marker (page_of resp));
    [repeat split; intros; try discriminate; intuition discriminate|].
  destruct (wordpress_marker (page_of resp)).
  { destruct (contains "woocommerce" (page_html (page_of resp)));
      repeat split; intros; try discriminate; intuition discriminate. }
  destruct (prestashop_marker (page_of resp));
    [repeat split; intros; try discriminate; intuition discriminate|].
  destruct (squarespace_marker (page_of resp));
    repeat split; intros; try discriminate; intuition discriminate.
Qed.

(** The keys of the lowercased header dictionary. *)
Lemma lower_headers_keys items key : forall m : gmap string string,
  is_Some (foldl (fun m kv => <[lower kv.1 := lower kv.2]> m) m items !! key)
  <-> is_Some (m !! key)
      \/ exists k v, In (k, v) items /\ lower k = key.
Proof.
  induction items as [|[k0 v0] items IH]; intros m; cbn [foldl].
  - split; [now left | intros [H|(k & v & [] & _)]; exact H].
  - rewrite IH. cbn [fst snd]. rewrite lookup_insert_is_Some. split.
    + intros [[H|[_ H]]|(k & v & Hin & Hk)].
      * right. exists k0, v0. split; [now left | exact H].
      * now left.
      * right. exists k, v. split; [now right | exact Hk].
    + intros [H|(k & v & [[= <- <-]|Hin] & Hk)].
      * left. destruct (decide (lower k0 = key)); [now left | now right].
      * left. now left.
      * right. eauto.
Qed.

Lemma has_key_lower_headers items key k v :
  In (k, v) items -> lower k = key -> has_key key (lower_headers items) = true.
Proof.
  intros Hin Hk. unfold has_key, lower_headers.
  apply bool_decide_eq_true_2, lower_headers_keys. right. eauto.
Qed.

(** X14.  Header names are matched without regard to letter case: a
    response with a header whose name reads "x-shopify-stage" in any case
    is labelled "Shopify", and one whose name reads "x-wix-request-id" is
    labelled "Wix" unless a Shopify marker matches. *)
Theorem detect_cms_header_names (resp : Response)
  (items : list (string * string)) (k v : string) :
  requests.headers resp = Some items ->
  In (k, v) items ->
  (lower k = "x-shopify-stage" ->
   detect_cms_from_response (Some resp) = "Shopify")
  /\ (lower k = "x-wix-request-id" ->
      shopify_marker (page_of resp) = false ->
      detect_cms_from_response (Some resp) = "Wix").
Proof.
  intros Hh Hin. split.
  - intros Hk. rewrite detect_cms_unfold. cbn zeta.
    unfold shopify_marker, page_of. cbn [page_headers]. rewrite Hh.
    cbn [default from_option id].
    rewrite (has_key_lower_headers items _ k v Hin Hk).
    now rewrite !orb_true_r.
  - intros Hk Hs. rewrite detect_cms_unfold. cbn zeta. rewrite Hs.
    unfold wix_marker, page_of. cbn [page_headers]. rewrite Hh.
    cbn [default from_option id].
    rewrite (has_key_lower_headers items _ k v Hin Hk).
    now rewrite !orb_true_r.
Qed.

Lemma detect_cms_header_names_witness :
  detect_cms_from_response
    (Some (requests.mkResponse 200 (Some "<html></html>")
             (Some [("Server", "nginx"); ("X-Shopify-Stage", "production")])
             (Some "https://shop.example.org/")))
  = "Shopify".
Proof.
  apply (proj1 (detect_cms_header_names
                  (requests.mkResponse 200 (Some "<html></html>")
                     (Some [("Server", "nginx");
                            ("X-Shopify-Stage", "production")])
                     (Some "https://shop.example.org/"))
                  [("Server", "nginx"); ("X-Shopify-Stage", "production")]
                  "X-Shopify-Stage" "production" eq_refl
                  ltac:(cbn; auto))).
  reflexivity.
Defined.

Lemma lower_headers_lowered items : forall m : gmap string string,
  foldl (fun m kv => <[lower kv.1 := lower kv.2]> m) m
    (map (fun kv => (lower kv.1, lower kv.2)) items)
  = foldl (fun m kv => <[lower kv.1 := lower kv.2]> m) m items.
Proof.
  induction items as [|[k v] items IH]; intros m; [reflexivity|].
  cbn [map foldl fst snd]. now rewrite !lower_idem, IH.
Qed.

(** X15.  The classifier ignores letter case and the status code: a
    response and the same response with its body, its header names and
    values and its URL lowercased, under any status code, get the same
    label. *)
Theorem detect_cms_ignores_case (sc sc' : Z) (t : option string)
  (h : option (list (string * string))) (u : option string) :
  detect_cms_from_response
    (Some (requests.mkResponse sc' (option_map lower t)
             (option_map (map (fun kv => (lower kv.1, lower kv.2))) h)
             (option_map lower u)))
  = detect_cms_from_response (Some (requests.mkResponse sc t h u)).
Proof.
  rewrite !detect_cms_unfold.
  replace (page_of (requests.mkResponse sc' (option_map lower t)
             (option_map (map (fun kv => (lower kv.1, lower kv.2))) h)
             (option_map lower u)))
    with (page_of (requests.mkResponse sc t h u)); [reflexivity|].
  unfold page_of. cbn [requests.text requests.headers requests.url].
  f_equal.
  - destruct t; cbn; [now rewrite lower_idem | reflexivity].
  - destruct h as [items|]; cbn; [|reflexivity].
    unfold lower_headers. now rewrite lower_headers_lowered.
  - destruct u; cbn; [now rewrite lower_idem | reflexivity].
Qed.

Lemma startswith_append p s : startswith p (p +:+ s) = true.
Proof.
  induction p as [|c p IH]; step_append; [destruct s; reflexivity|].
  cbn. now rewrite Ascii.eqb_refl.
Qed.

Lemma startswith_prefix p q s :
  startswith (p +:+ q) s = true -> startswith p s = true.
Proof.
  revert s. induction p as [|c p IH]; intros s; step_append.
  - destruct s; reflexivity.
  - destruct s as [|a s]; cbn; [discriminate|].
    intros H. apply andb_prop in H as [-> H]. now rewrite (IH _ H).
Qed.

Lemma startswith_drop p q s :
  startswith (p +:+ q) s = true ->
  startswith q (drop (String.length p) s) = true.
Proof.
  revert s. induction p as [|c p IH]; intros s; step_append.
  - now destruct s.
  - destruct s as [|a s]; cbn; [discriminate|].
    intros H. apply andb_prop in H as [_ H]. now apply IH.
Qed.

Lemma contains_drop sub n s :
  contains sub (drop n s) = true -> contains sub s = true.
Proof.
  revert s. induction n as [|n IH]; intros s; [now destruct s|].
  destruct s as [|c s]; [easy|]. cbn [drop]. intros H.
  rewrite contains_cons, (IH _ H). apply orb_true_r.
Qed.

(** A text that contains a marker contains every piece of the marker. *)
Lemma contains_piece p q r s :
  contains (p +:+ q +:+ r) s = true -> contains q s = true.
Proof.
  induction s as [|c s IH].
  - cbn. rewrite !orb_false_r. intros H.
    apply startswith_drop in H. apply startswith_prefix in H.
    destruct (String.length p); cbn in H |- *; now rewrite H.
  - rewrite contains_cons. intros H. apply orb_prop in H as [H|H].
    + apply startswith_drop in H. apply startswith_prefix in H.
      apply contains_drop with (n := String.length p).
      destruct (drop (String.length p) (String c s)); cbn in H |- *;
        now rewrite H.
    + rewrite contains_cons, (IH H). apply orb_true_r.
Qed.

(** X16.  The second marker of the PrestaShop test and the first marker of
    the Squarespace test decide nothing: a text that contains "powered by
    prestashop" contains "prestashop", and one that contains
    "static1.squarespace.com" contains "squarespace.com", so each test is
    the test of its shorter marker alone. *)
Theorem prestashop_squarespace_short_markers (p : Page) :
  prestashop_marker p = contains "prestashop" (page_html p)
  /\ squarespace_marker p = contains "squarespace.com" (page_html p).
Proof.
  unfold prestashop_marker, squarespace_marker. split.
  - destruct (contains "prestashop" (page_html p)) eqn:E; [reflexivity|].
    destruct (contains "powered by prestashop" (page_html p)) eqn:E'; [|reflexivity].
    apply (contains_piece "powered by " "prestashop" "") in E'. congruence.
  - destruct (contains "squarespace.com" (page_html p)) eqn:E;
      [apply orb_true_r|].
    destruct (contains "static1.squarespace.com" (page_html p)) eqn:E'; [|reflexivity].
    apply (contains_piece "static1." "squarespace.com" "") in E'. congruence.
Qed.

End ClassifierMore.

(* ===================================================================== *)
(** ** Rows and tables: labels, requests, columns *)
(* ===================================================================== *)

Section RowsMore.

Variable net : list string -> string -> result Response.

Lemma detect_cms_label_in resp :
  In (detect_cms_from_response (Some resp)) CLASSIFIER_LABELS.
Proof.
  rewrite detect_cms_unfold. cbn zeta. unfold wordpress_label.
  repeat match goal with
         | |- context [if ?b then _ else _] => destruct b
         end; cbn; auto 12.
Qed.

Lemma classifier_labels_all label :
  In label CLASSIFIER_LABELS -> In label ALL_LABELS /\ label <> "Error".
Proof.
  intros H. split; [unfold ALL_LABELS; apply in_or_app; now left|].
  cbn in H. intuition (subst; discriminate).
Qed.

(** The labels of a row that did not raise. *)
Lemma detect_cms_for_email_label email w cms u w' :
  detect_cms_for_email_with_url net email w = (Ok (cms, u), w') ->
  In cms ALL_LABELS /\ cms <> "Error".
Proof.
  unfold detect_cms_for_email_with_url, bind.
  destruct (email_to_str email) as [email_str|e]; [|discriminate].
  cbn [lift ret].
  destruct (extract_domain_from_email (CStr email_str)) as [domain|].
  - destruct (guess_website_url net domain w) as [[[[gu|] [gr|]]|e] w1];
      try discriminate; unfold ret; intros [= <- <- <-];
      try (split; [cbn; auto 12 | discriminate]).
    apply classifier_labels_all, detect_cms_label_in.
  - unfold ret. intros [= <- <- <-]. split; [cbn; auto 12 | discriminate].
Qed.

(** X17.  Every row is recorded with one of the eleven labels, and its
    error detail is empty exactly when the label is not "Error". *)
Theorem process_row_label (email : cell) (w : World) :
  exists cms final_url detail w',
    process_row net email w = (Ok (cms, final_url, detail), w')
    /\ In cms ALL_LABELS
    /\ (detail = "" <-> cms <> "Error").
Proof.
  rewrite process_row_run.
  destruct (detect_cms_for_email_with_url net email w) as [[[cms u]|e] w'] eqn:Hd.
  - destruct (detect_cms_for_email_label _ _ _ _ _ Hd) as [Hin Hne].
    exists cms, u, "", w'. cbn. split; [reflexivity|]. split; [exact Hin|].
    split; auto.
  - exists "Error", "", (exc_kind e +:+ ": " +:+ exc_msg e), w'. cbn.
    split; [reflexivity|]. split; [auto 15|].
    split; [intros H; now apply error_detail_nonempty in H | congruence].
Qed.

(** X18.  A row without a domain costs no request: when the row is
    labelled "No domain / Generic email" its URL is empty and the world is
    as it was before the row. *)
Theorem no_domain_no_request (email : cell) (w w' : World) (u : string) :
  detect_cms_for_email_with_url net email w
  = (Ok ("No domain / Generic email", u), w') ->
  u = "" /\ w' = w.
Proof.
  unfold detect_cms_for_email_with_url, bind.
  destruct (email_to_str email) as [email_str|e]; [|discriminate].
  cbn [lift ret].
  destruct (extract_domain_from_email (CStr email_str)) as [domain|].
  - destruct (guess_website_url net domain w) as [[[[gu|] [gr|]]|e] w1];
      try discriminate; unfold ret; try (intros [= <- <-]; discriminate).
    pose proof (detect_cms_label_of_response gr) as Hl. revert Hl.
    generalize (detect_cms_from_response (Some gr)) as lbl.
    intros lbl Hl [= -> <- <-]. exfalso. apply Hl. cbn. auto.
  - unfold ret. intros [= <- <-]. auto.
Qed.

(** The requests of one row. *)
Lemma detect_cms_for_email_log email w :
  exists urls,
    length urls <= 4
    /\ snd (detect_cms_for_email_with_url net email w) = log_requests w urls.
Proof.
  unfold detect_cms_for_email_with_url, bind.
  destruct (email_to_str email) as [email_str|e]; cbn [lift ret raise].
  2:{ exists []. split; [cbn; lia|]. cbn. now rewrite log_requests_nil. }
  destruct (extract_domain_from_email (CStr email_str)) as [domain|].
  - destruct (guess_website_url_log net domain w) as (k & Hk & Hsnd & _).
    exists (take k (candidate_urls domain)).
    split; [rewrite length_take; lia|].
    destruct (guess_website_url net domain w) as [[[[gu|] [gr|]]|e] w1];
      exact Hsnd.
  - exists []. split; [cbn; lia|]. cbn. now rewrite log_requests_nil.
Qed.

(** The requests of the loop over the email column. *)
Lemma world_after_log emails : forall w,
  exists urls,
    length urls <= 4 * length emails
    /\ world_after net emails w = log_requests w urls.
Proof.
  unfold world_after.
  induction emails as [|email emails IH]; intros w.
  - exists []. split; [cbn; lia|]. cbn. now rewrite log_requests_nil.
  - cbn [world_before length].
    destruct (detect_cms_for_email_log email w) as (urls1 & H1 & ->).
    destruct (IH (log_requests w urls1)) as (urls2 & H2 & ->).
    exists (urls1 ++ urls2). split; [rewrite length_app; lia|].
    apply log_requests_app.
Qed.

(** The world a run of [process_dataframe] leaves behind, whatever the
    table. *)
Lemma process_dataframe_world df w :
  snd (process_dataframe net df w) = w
  \/ exists col emails,
       find_email_column df = Ok col
       /\ get_column df col = Ok emails
       /\ snd (process_dataframe net df w) = world_after net emails w.
Proof.
  unfold process_dataframe, bind.
  destruct (find_email_column df) as [col|e] eqn:Hf; cbn [lift ret raise];
    [|now left].
  destruct (get_column df col) as [emails|e] eqn:Hg; cbn [lift ret raise];
    [|now left].
  right. exists col, emails. split; [reflexivity|]. split; [exact Hg|].
  rewrite for_emails_run.
  destruct (set_column df _ _) as [df1|e1]; cbn [lift ret raise]; [|reflexivity].
  destruct (set_column df1 _ _) as [df2|e2]; cbn [lift ret raise]; [|reflexivity].
  destruct (set_column df2 _ _) as [df3|e3]; reflexivity.
Qed.

(** X19.  A run over a well-formed table with at least one column makes at
    most four requests per row and writes no file. *)
Theorem process_dataframe_requests (df : DataFrame) (w : World) :
  wf_df df = true ->
  columns df <> [] ->
  exists urls,
    length urls <= 4 * index_size df
    /\ snd (process_dataframe net df w) = log_requests w urls.
Proof.
  intros Hwf Hne.
  destruct (email_column_cells df Hwf Hne) as (col & emails & Hfind & Hget & Hlen).
  destruct (process_dataframe_world df w) as [H|(col' & emails' & Hf & Hg & H)].
  - exists []. split; [cbn; lia|]. rewrite H. cbn. now rewrite log_requests_nil.
  - rewrite Hfind in Hf. injection Hf as <-.
    rewrite Hget in Hg. injection Hg as <-.
    destruct (world_after_log emails w) as (urls & Hurls & Hw).
    exists urls. split; [lia|]. now rewrite H.
Qed.

(** X20.  A table without columns is refused before any request is made:
    the run raises [IndexError] and leaves the world as it was. *)
Theorem process_dataframe_no_columns (df : DataFrame) (w : World) :
  columns df = [] ->
  process_dataframe net df w
  = (Raise (mkExc "IndexError"
              "index 0 is out of bounds for axis 0 with size 0" false), w).
Proof.
  intros Hcols. unfold process_dataframe, bind.
  now rewrite (find_email_column_empty df Hcols).
Qed.

End RowsMore.

Lemma no_domain_no_request_witness :
  detect_cms_for_email_with_url example_network (CStr "a@gmail.com")
    (mkWorld ["https://earlier.example"] [])
  = (Ok ("No domain / Generic email", ""),
     mkWorld ["https://earlier.example"] [])
  /\ ("" : string) = ""
  /\ mkWorld ["https://earlier.example"] []
     = mkWorld ["https://earlier.example"] [].
Proof.
  split; [reflexivity|].
  exact (no_domain_no_request example_network (CStr "a@gmail.com")
           (mkWorld ["https://earlier.example"] [])
           (mkWorld ["https://earlier.example"] []) "" eq_refl).
Defined.

Lemma process_dataframe_requests_witness :
  exists urls,
    length urls <= 16
    /\ snd (process_dataframe example_network example_table (mkWorld [] []))
       = log_requests (mkWorld [] []) urls.
Proof.
  exact (process_dataframe_requests example_network example_table
           (mkWorld [] []) eq_refl ltac:(discriminate)).
Defined.

Lemma process_dataframe_no_columns_witness :
  fst (process_dataframe example_network (mkDataFrame 3 []) (mkWorld [] []))
  = Raise (mkExc "IndexError"
             "index 0 is out of bounds for axis 0 with size 0" false).
Proof.
  now rewrite (process_dataframe_no_columns example_network
                 (mkDataFrame 3 []) (mkWorld [] []) eq_refl).
Defined.

(* ===================================================================== *)
(** ** The columns of the returned table *)
(* ===================================================================== *)

Section ColumnsMore.

Variable net : list string -> string -> result Response.

Lemma has_label_In label labels :
  existsb (String.eqb label) labels = true <-> In label labels.
Proof.
  rewrite existsb_exists. split.
  - intros (l & Hin & E). apply String.eqb_eq in E. now subst.
  - intros H. exists label. split; [exact H | apply String.eqb_refl].
Qed.

Lemma has_label_app label l1 l2 :
  existsb (String.eqb label) (l1 ++ l2) = existsb (String.eqb label) l1 || existsb (String.eqb label) l2.
Proof. apply existsb_app. Qed.

(** Assigning a column keeps the labels when the label exists and adds it
    at the end when it does not. *)
Lemma replace_column_labels label values cs :
  map fst (replace_column label values cs)
  = if existsb (String.eqb label) (map fst cs) then map fst cs
    else map fst cs ++ [label].
Proof.
  induction cs as [|[l old] cs IH]; [reflexivity|].
  cbn [replace_column map fst existsb].
  rewrite (String.eqb_sym label l).
  destruct (String.eqb l label) eqn:E; cbn [orb map fst].
  - reflexivity.
  - rewrite IH. now destruct (existsb (String.eqb label) (map fst cs)).
Qed.

Lemma distinct_app_fresh labels label :
  distinct labels = true -> existsb (String.eqb label) labels = false ->
  distinct (labels ++ [label]) = true.
Proof.
  induction labels as [|l labels IH]; [reflexivity|].
  cbn [distinct existsb app]. intros H Hf.
  apply andb_prop in H as [Hl Hd]. apply orb_false_elim in Hf as [Hne Hf].
  rewrite has_label_app, (IH Hd Hf). cbn [existsb].
  rewrite (String.eqb_sym l label), Hne.
  apply negb_true_iff in Hl. now rewrite Hl.
Qed.

Lemma replace_column_lengths n label values cs :
  length values = n ->
  forallb (fun c => (length (snd c) =? n)%nat) cs = true ->
  forallb (fun c => (length (snd c) =? n)%nat) (replace_column label values cs)
  = true.
Proof.
  intros Hv. induction cs as [|[l old] cs IH]; cbn [replace_column forallb snd].
  - intros _. apply Nat.eqb_eq in Hv. now rewrite Hv.
  - intros H. apply andb_prop in H as [Ho Hcs].
    destruct (String.eqb l label); cbn [forallb snd].
    + apply Nat.eqb_eq in Hv. now rewrite Hv, Hcs.
    + now rewrite Ho, (IH Hcs).
Qed.

Lemma has_label_after_add (labels : list string) l l' :
  String.eqb l' l = false ->
  existsb (String.eqb l')
    (if existsb (String.eqb l) labels then labels else labels ++ [l])
  = existsb (String.eqb l') labels.
Proof.
  intros Hne. destruct (existsb (String.eqb l) labels); [reflexivity|].
  rewrite has_label_app. cbn [existsb]. rewrite Hne. now rewrite !orb_false_r.
Qed.

(** A successful assignment keeps a table well formed. *)
Lemma set_column_wf df label values df' :
  wf_df df = true ->
  set_column df label values = Ok df' ->
  wf_df df' = true
  /\ columns df'
     = if existsb (String.eqb label) (columns df) then columns df
       else columns df ++ [label].
Proof.
  unfold set_column, wf_df, columns.
  destruct (length values =? index_size df)%nat eqn:Hlen; [|discriminate].
  apply Nat.eqb_eq in Hlen. intros Hwf [= <-]. cbn [cols index_size].
  apply andb_prop in Hwf as [Hd Hl].
  rewrite replace_column_labels, (replace_column_lengths _ _ _ _ Hlen Hl).
  split; [|reflexivity]. rewrite andb_true_r.
  destruct (existsb (String.eqb label) (map fst (cols df))) eqn:E;
    [exact Hd | now apply distinct_app_fresh].
Qed.

(** X21.  The returned table is well formed again.  It keeps the columns
    of the input in their order; a result column whose label the input
    already has is overwritten where it stands, and the other result
    columns are added at the end in the order "cms_detected",
    "detected_url", "error_detail". *)
Theorem process_dataframe_columns (df : DataFrame) (w : World) :
  wf_df df = true ->
  columns df <> [] ->
  exists df_out w',
    process_dataframe net df w = (Ok df_out, w')
    /\ wf_df df_out = true
    /\ columns df_out
       = columns df
         ++ List.filter (fun label => negb (existsb (String.eqb label) (columns df)))
              RESULT_COLUMNS.
Proof.
  intros Hwf Hne.
  destruct (process_dataframe_records net df w Hwf Hne)
    as (emails & _ & col & df_out & w' & Hfind & Hget & Hproc & _).
  exists df_out, w'. split; [exact Hproc|].
  revert Hproc. unfold process_dataframe, bind.
  rewrite Hfind. cbn [lift ret]. rewrite Hget. cbn [lift ret].
  rewrite for_emails_run.
  destruct (set_column df _ _) as [df1|e1] eqn:H1; cbn [lift ret raise];
    [|discriminate].
  destruct (set_column df1 _ _) as [df2|e2] eqn:H2; cbn [lift ret raise];
    [|discriminate].
  destruct (set_column df2 _ _) as [df3|e3] eqn:H3; cbn [lift ret raise];
    [|discriminate].
  intros [= <- _].
  destruct (set_column_wf _ _ _ _ Hwf H1) as [Hwf1 Hc1].
  destruct (set_column_wf _ _ _ _ Hwf1 H2) as [Hwf2 Hc2].
  destruct (set_column_wf _ _ _ _ Hwf2 H3) as [Hwf3 Hc3].
  split; [exact Hwf3|].
  rewrite Hc3, Hc2, Hc1.
  rewrite !has_label_after_add by reflexivity.
  unfold RESULT_COLUMNS. cbn [List.filter].
  destruct (existsb (String.eqb "cms_detected") (columns df));
    destruct (existsb (String.eqb "detected_url") (columns df));
    destruct (existsb (String.eqb "error_detail") (columns df));
    cbn [negb app]; rewrite <- ?app_assoc, ?app_nil_r; reflexivity.
Qed.

End ColumnsMore.

Lemma process_dataframe_columns_witness :
  exists df_out w',
    process_dataframe example_network example_table (mkWorld [] [])
    = (Ok df_out, w')
    /\ wf_df df_out = true
    /\ columns df_out
       = ["name"; "Email "; "cms_detected"; "detected_url"; "error_detail"].
Proof.
  exact (process_dataframe_columns example_network example_table
           (mkWorld [] []) eq_refl ltac:(discriminate)).
Defined.

(* ===================================================================== *)
(** ** File to file, and the front end *)
(* ===================================================================== *)

Section FilesMore.

Variable net : list string -> string -> result Response.
Variable read_excel : string -> result DataFrame.
Variable to_excel_error : string -> option PyExc.




(** X23.  What fails before the loop aborts the run with no request made
    and nothing written: an unreadable input raises the exception of the
    reader, and a table without columns raises [IndexError]. *)
Theorem process_excel_aborts_early (input_path : string)
  (output_path : option string) (w : World) :
  (forall e, read_excel input_path = Raise e ->
     process_excel net read_excel to_excel_error input_path output_path w
     = (Raise e, w))
  /\ (forall df, read_excel input_path = Ok df -> columns df = [] ->
        process_excel net read_excel to_excel_error input_path output_path w
        = (Raise (mkExc "IndexError"
                    "index 0 is out of bounds for axis 0 with size 0" false),
           w)).
Proof.
  split.
  - intros e Hread. unfold process_excel, bind. now rewrite Hread.
  - intros df Hread Hcols. unfold process_excel, bind. rewrite Hread.
    cbn [lift ret]. unfold process_dataframe, bind.
    now rewrite (find_email_column_empty df Hcols).
Qed.

Variable basename : string -> string.


End FilesMore.

Lemma process_excel_aborts_early_witness :
  process_excel example_network (fun _ => Ok (mkDataFrame 0 []))
    example_to_excel_error "empty.xlsx" None (mkWorld [] [])
  = (Raise (mkExc "IndexError"
              "index 0 is out of bounds for axis 0 with size 0" false),
     mkWorld [] []).
Proof.
  exact (proj2 (process_excel_aborts_early example_network
                  (fun _ => Ok (mkDataFrame 0 [])) example_to_excel_error
                  "empty.xlsx" None (mkWorld [] []))
           (mkDataFrame 0 []) eq_refl eq_refl).
Defined.

